(** * doc_assistant_new: the voice-transcription stub and the legacy
      pre-diagnosis module

    A shallow embedding of

    - [ai_services/voice_transcription/app.py]: a Flask application with two
      constant JSON routes and a [__main__] block that reads [PORT];
    - [ai_services/pre_diagnosis_summary/pre_diagnosis_summary_service.py]:
      a module whose body is comments only;
    - [ai_services/pre_diagnosis_summary/tests/test_pre_diagnosis_summary_service.py]:
      the unit test that still imports a class from that module.

    The application code is a handful of calls into Python's built-ins, Flask
    and python-dotenv.  Those calls are modelled by the behaviour their
    libraries document, each in a module of its own below ([Py], [dotenv],
    [flask]); the modules [app], [pre_diagnosis_summary_service] and
    [test_pre_diagnosis_summary_service] then follow the three source files
    line by line. *)

From Stdlib Require Import ZArith NArith Ascii String List Bool Lia.
From stdpp Require Import base option list strings gmap fin_maps.

Local Open Scope string_scope.
Local Open Scope Z_scope.

(* ===================================================================== *)
(** * Python: values, exceptions, [int()], [os.environ]                   *)
(* ===================================================================== *)

Module Py.

(** Exceptions the modelled code can raise. [ModuleNotFoundError] is a
    subclass of [ImportError] in Python; [is_import_error] records that. *)
Inductive exn : Type :=
| ValueError
| ImportError
| ModuleNotFoundError
| NameError
| AttributeError
| TypeError
| SystemExit.

Definition is_import_error (e : exn) : bool :=
  match e with
  | ImportError | ModuleNotFoundError => true
  | _ => false
  end.

(** A computation that either raises or returns. *)
Inductive result (A : Type) : Type :=
| Raise (e : exn)
| Return (a : A).
Arguments Raise {A} e.
Arguments Return {A} a.

Definition bind {A B : Type} (m : result A) (k : A -> result B) : result B :=
  match m with
  | Raise e => Raise e
  | Return a => k a
  end.

(** ** Strings

    A [str] is a sequence of Unicode code points, a [list N] here. [text]
    gives the [str] of a literal written with characters below 256. *)
Definition text (s : string) : list N :=
  map N_of_ascii (list_ascii_of_string s).

(** The two kinds of object that reach [int()] in [app.py]: the [str] found
    in [os.environ], or the [int] default [9001]. *)
Inductive value : Type :=
| VInt (n : Z)
| VStr (s : list N).

(** ** Characters of a C string *)
Definition ord (c : ascii) : N := N_of_ascii c.

(** [Py_ISSPACE]: the C-locale white space, used by [PyLong_FromString]. *)
Definition Py_ISSPACE (c : ascii) : bool :=
  ((9 <=? ord c)%N && (ord c <=? 13)%N) || (ord c =? 32)%N.

(** [_PyLong_DigitValue] restricted to base 10. *)
Definition digit_value (c : ascii) : option Z :=
  if ((48 <=? ord c)%N && (ord c <=? 57)%N)%bool
  then Some (Z.of_N (ord c) - 48)
  else None.

Definition is_digit (c : ascii) : bool :=
  match digit_value c with Some _ => true | None => false end.

Definition underscore : ascii := "_"%char.
Definition is_underscore (c : ascii) : bool := (ord c =? 95)%N.

(** ** The Unicode database

    [Py_UNICODE_ISSPACE]: the code points [str.isspace] accepts. *)
Definition Py_UNICODE_ISSPACE (ch : N) : bool :=
  (((9 <=? ch) && (ch <=? 13)) || ((28 <=? ch) && (ch <=? 32))
   || (ch =? 133) || (ch =? 160) || (ch =? 5760)
   || ((8192 <=? ch) && (ch <=? 8202))
   || (ch =? 8232) || (ch =? 8233) || (ch =? 8239) || (ch =? 8287)
   || (ch =? 12288))%N.

(** A decimal digit, as [Py_UNICODE_TODECIMAL] returns it when it does not
    return -1. *)
Inductive decimal : Type :=
| D0 | D1 | D2 | D3 | D4 | D5 | D6 | D7 | D8 | D9.

(** ['0' + decimal] *)
Definition decimal_char (d : decimal) : ascii :=
  match d with
  | D0 => "0" | D1 => "1" | D2 => "2" | D3 => "3" | D4 => "4"
  | D5 => "5" | D6 => "6" | D7 => "7" | D8 => "8" | D9 => "9"
  end%char.

Definition decimal_of_N (n : N) : option decimal :=
  match n with
  | 0 => Some D0 | 1 => Some D1 | 2 => Some D2 | 3 => Some D3
  | 4 => Some D4 | 5 => Some D5 | 6 => Some D6 | 7 => Some D7
  | 8 => Some D8 | 9 => Some D9 | _ => None
  end%N.

(** What varies from one interpreter to the next: the limit
    [sys.get_int_max_str_digits()] (4300 by default since Python 3.11, 0
    when the limit is switched off and in the interpreters without it), and
    the decimal digits beyond ASCII of the Unicode version the interpreter
    was built with, [None] standing for -1. *)
Record Interpreter : Type := mkInterpreter {
  max_str_digits : nat;
  decimal_beyond_ascii : N -> option decimal
}.

(** [Py_UNICODE_TODECIMAL]: fixed on the ASCII code points, where only
    ['0'] to ['9'] have a decimal value, and the interpreter's table
    beyond them. *)
Definition Py_UNICODE_TODECIMAL (py : Interpreter) (ch : N) : option decimal :=
  if (ch <? 128)%N
  then if ((48 <=? ch) && (ch <=? 57))%N then decimal_of_N (ch - 48) else None
  else decimal_beyond_ascii py ch.

(** An interpreter with the default limit whose table knows the
    Arabic-Indic digits (U+0660 to U+0669) and the fullwidth digits (U+FF10
    to U+FF19), for examples. *)
Definition sample_interpreter : Interpreter :=
  {| max_str_digits := 4300;
     decimal_beyond_ascii := fun ch =>
       if ((1632 <=? ch) && (ch <=? 1641))%N then decimal_of_N (ch - 1632)
       else if ((65296 <=? ch) && (ch <=? 65305))%N
            then decimal_of_N (ch - 65296)
            else None |}.

(** ** [PyLong_FromString], base 10 *)

Fixpoint skip_spaces (s : string) : string :=
  match s with
  | String c s' => if Py_ISSPACE c then skip_spaces s' else s
  | EmptyString => EmptyString
  end.

(** The optional sign: [+1] or [-1] and the rest of the text. *)
Definition parse_sign (s : string) : Z * string :=
  match s with
  | String "+"%char s' => (1, s')
  | String "-"%char s' => (-1, s')
  | _ => (1, s)
  end.

(** The scan over digits and underscores of [long_from_string_base]:
    [prev_us] is [prev == '_'], [acc] the value so far, [digits] the number
    of digit characters seen. An underscore after an underscore, or one at
    the end of the run, is a syntax error ([None]); otherwise the value, the
    digit count and the unread text are returned. *)
Fixpoint scan_digits (prev_us : bool) (acc : Z) (digits : nat) (s : string)
  : option (Z * nat * string) :=
  match s with
  | EmptyString => if prev_us then None else Some (acc, digits, EmptyString)
  | String c s' =>
      if is_underscore c then
        if prev_us then None else scan_digits true acc digits s'
      else
        match digit_value c with
        | Some d => scan_digits false (10 * acc + d) (S digits) s'
        | None => if prev_us then None else Some (acc, digits, s)
        end
  end.

(** [_PY_LONG_MAX_STR_DIGITS_THRESHOLD]: below it the limit is never
    consulted. *)
Definition MAX_STR_DIGITS_THRESHOLD : nat := 640.

Definition exceeds_limit (limit : nat) (digits : nat) : bool :=
  (MAX_STR_DIGITS_THRESHOLD <? digits)%nat
  && (0 <? limit)%nat
  && (limit <? digits)%nat.

(** [limit] is the interpreter's [max_str_digits]. *)
Definition PyLong_FromString (limit : nat) (s : string) : option Z :=
  let s1 := skip_spaces s in
  let '(sign, s2) := parse_sign s1 in
  match s2 with
  | String c _ =>
      if is_underscore c then None
      else
        match scan_digits false 0 0%nat s2 with
        | None => None
        | Some (v, digits, rest) =>
            if (digits =? 0)%nat then None
            else if exceeds_limit limit digits then None
            else
              match skip_spaces rest with
              | EmptyString => Some (sign * v)
              | String _ _ => None
              end
        end
  | EmptyString => None
  end.

Section Interpreter.

Variable py : Interpreter.

(** [PyUnicode_IS_ASCII] *)
Definition PyUnicode_IS_ASCII (u : list N) : bool :=
  forallb (fun ch => (ch <? 128)%N) u.

(** The characters of an ASCII [str] as a C string. *)
Definition ascii_text (u : list N) : string :=
  string_of_list_ascii (map ascii_of_N u).

(** The loop of [_PyUnicode_TransformDecimalAndSpaceToASCII]: code points
    below 127 are kept; a Unicode space becomes an ASCII space and a
    Unicode decimal digit the ASCII digit of its value; at the first other
    code point the output gets a ['?'] and stops. *)
Fixpoint transform_loop (u : list N) : string :=
  match u with
  | [] => EmptyString
  | ch :: u' =>
      if (ch <? 127)%N
      then String (ascii_of_N ch) (transform_loop u')
      else if Py_UNICODE_ISSPACE ch
           then String " "%char (transform_loop u')
           else
             match Py_UNICODE_TODECIMAL py ch with
             | Some d => String (decimal_char d) (transform_loop u')
             | None => String "?"%char EmptyString
             end
  end.

(** [_PyUnicode_TransformDecimalAndSpaceToASCII]: an ASCII string is
    handed back as it is, any other goes through the loop. *)
Definition TransformDecimalAndSpaceToASCII (u : list N) : string :=
  if PyUnicode_IS_ASCII u then ascii_text u else transform_loop u.

(** [PyLong_FromUnicodeObject]: transform, parse, [ValueError] on failure. *)
Definition int_of_str (s : list N) : result Z :=
  match PyLong_FromString (max_str_digits py)
          (TransformDecimalAndSpaceToASCII s) with
  | Some n => Return n
  | None => Raise ValueError
  end.

(** The built-in [int(x)]. *)
Definition int (x : value) : result Z :=
  match x with
  | VInt n => Return n
  | VStr s => int_of_str s
  end.

End Interpreter.

(** ** [os.environ] *)

(** [os.environ.get(key, default)]. *)
Definition environ_get (environ : gmap string (list N)) (key : string)
  (default : value) : value :=
  match environ !! key with
  | Some s => VStr s
  | None => default
  end.

End Py.

(* ===================================================================== *)
(** * python-dotenv                                                       *)
(* ===================================================================== *)

Module dotenv.

(** [load_dotenv()] with its default arguments ([override=False]): each
    binding of the [.env] file whose name is not yet in [os.environ] is
    added to it; names already set keep their value. [file] holds the
    bindings of the file found, and is empty when there is none. *)
Definition load_dotenv (file : gmap string (list N))
  (environ : gmap string (list N)) : gmap string (list N) :=
  environ ∪ file.

End dotenv.
(* ===================================================================== *)
(** * Flask                                                               *)
(* ===================================================================== *)

Module flask.

(** JSON documents as [jsonify] receives them: Python [dict] literals keep
    the order of their keys, hence the association list. *)
#[warnings="-register-all"] Inductive json : Type :=
| JNull
| JBool (b : bool)
| JNum (n : Z)
| JStr (s : string)
| JArr (items : list json)
| JObj (members : list (string * json)).

(** [d.get(key)] on an object. *)
Fixpoint members_get (members : list (string * json)) (key : string)
  : option json :=
  match members with
  | [] => None
  | (k, v) :: rest => if String.eqb k key then Some v else members_get rest key
  end.

Definition json_get (j : json) (key : string) : option json :=
  match j with
  | JObj members => members_get members key
  | _ => None
  end.

(** The strings of an array of strings. *)
Definition json_strings (j : json) : list string :=
  match j with
  | JArr items =>
      flat_map (fun i => match i with JStr s => [s] | _ => [] end) items
  | _ => []
  end.

(** The request method, upper-cased as Werkzeug presents it. *)
Inductive Method : Type :=
| GET | HEAD | POST | PUT | DELETE | CONNECT | OPTIONS | TRACE | PATCH.

#[global] Instance Method_eq_dec : EqDecision Method.
Proof. solve_decision. Defined.

Definition has_method (m : Method) (ms : list Method) : bool :=
  existsb (fun m' => bool_decide (m' = m)) ms.

Record Request : Type := mkRequest {
  method : Method;
  path : string;
  query_string : string;
  headers : list (string * string);
  body : string
}.

(** What a response carries in this model: the status, the content type,
    the JSON document of the body (if the body is one) and the [Allow]
    header. Flask-CORS, installed by [CORS(app)], only adds
    [Access-Control-*] headers to a response and those are left out. *)
Record Response : Type := mkResponse {
  status_code : Z;
  mimetype : string;
  data : option json;
  allow : list Method
}.

(** [jsonify(obj)]: a 200 response whose body is the document. *)
Definition jsonify (obj : json) : Response :=
  {| status_code := 200;
     mimetype := "application/json";
     data := Some obj;
     allow := [] |}.

(** A HEAD request is answered with the headers of the response and no
    body. *)
Definition without_body (r : Response) : Response :=
  {| status_code := status_code r;
     mimetype := mimetype r;
     data := None;
     allow := allow r |}.

(** [Flask.make_default_options_response]. *)
Definition make_default_options_response (valid : list Method) : Response :=
  {| status_code := 200;
     mimetype := "text/html";
     data := None;
     allow := valid |}.

(** The response of [werkzeug.exceptions.MethodNotAllowed]. *)
Definition method_not_allowed_response (valid : list Method) : Response :=
  {| status_code := 405;
     mimetype := "text/html";
     data := None;
     allow := valid |}.

(** An entry of [app.url_map]. *)
Record Rule : Type := mkRule {
  rule : string;
  methods : list Method;
  endpoint : string;
  provide_automatic_options : bool
}.

(** [app.route(rule, methods=...)] on a function named [endpoint], that is
    [add_url_rule]: Flask adds OPTIONS (answered by the framework) unless
    the caller lists it, and Werkzeug's [Rule] adds HEAD to every rule that
    allows GET. *)
Definition add_url_rule (rule_ : string) (endpoint_ : string)
  (methods_ : list Method) (url_map : list Rule) : list Rule :=
  let automatic := negb (has_method OPTIONS methods_) in
  let methods1 := if automatic then (methods_ ++ [OPTIONS])%list else methods_ in
  let methods2 :=
    if has_method GET methods1 && negb (has_method HEAD methods1)
    then (methods1 ++ [HEAD])%list else methods1 in
  (url_map ++ [ {| rule := rule_;
                   methods := methods2;
                   endpoint := endpoint_;
                   provide_automatic_options := automatic |} ])%list.

(** ** Matching a path against a rule

    The rules of this application have two shapes: a literal path, or a
    literal prefix closed by one [<path:name>] converter. A rule of another
    shape matches nothing here. *)

Fixpoint strip_prefix (pre s : string) : option string :=
  match pre with
  | EmptyString => Some s
  | String a pre' =>
      match s with
      | String b s' => if Ascii.eqb a b then strip_prefix pre' s' else None
      | EmptyString => None
      end
  end.

(** The text of a rule before its first ['<'], and the text from there
    on. *)
Fixpoint split_at_converter (r : string) : string * string :=
  match r with
  | EmptyString => (EmptyString, EmptyString)
  | String c r' =>
      if Ascii.eqb c "<"%char then (EmptyString, r)
      else let '(a, b) := split_at_converter r' in (String c a, b)
  end.

(** [name] when the text is [name ++ ">"]. *)
Fixpoint strip_closing (s : string) : option string :=
  match s with
  | EmptyString => None
  | String c s' =>
      if Ascii.eqb c ">"%char
      then match s' with EmptyString => Some EmptyString | String _ _ => None end
      else option_map (String c) (strip_closing s')
  end.

(** [name] when the text is [<path:name>]. *)
Definition path_converter_name (conv : string) : option string :=
  match strip_prefix "<path:" conv with
  | Some rest => strip_closing rest
  | None => None
  end.

(** Werkzeug's [PathConverter] accepts a non-empty text that does not
    begin with a slash. *)
Definition path_converter_accepts (s : string) : bool :=
  match s with
  | String c _ => negb (Ascii.eqb c "/"%char)
  | EmptyString => false
  end.

(** The arguments for the view when the rule matches the path. *)
Definition match_rule (rule_ : string) (p : string)
  : option (list (string * string)) :=
  let '(literal, conv) := split_at_converter rule_ in
  match conv with
  | EmptyString => if String.eqb literal p then Some [] else None
  | String _ _ =>
      match path_converter_name conv with
      | Some name =>
          match strip_prefix literal p with
          | Some rest =>
              if path_converter_accepts rest then Some [(name, rest)] else None
          | None => None
          end
      | None => None
      end
  end.

Definition rule_matches (p : string) (r : Rule) : bool :=
  match match_rule (rule r) p with Some _ => true | None => false end.

Inductive RoutingResult : Type :=
| Matched (r : Rule) (view_args : list (string * string))
| NotAllowed (valid : list Method)
| Unmatched.

(** [MapAdapter.match]: the first rule with this path and method; failing
    that, [MethodNotAllowed] with the methods of the rules that have the
    path; failing that, a routing error. *)
Definition match_request (url_map : list Rule) (m : Method) (p : string)
  : RoutingResult :=
  let with_path :=
    flat_map (fun r => match match_rule (rule r) p with
                       | Some view_args => [(r, view_args)]
                       | None => []
                       end) url_map in
  match List.find (fun ra => has_method m (methods (fst ra))) with_path with
  | Some (r, view_args) => Matched r view_args
  | None =>
      match with_path with
      | [] => Unmatched
      | _ :: _ => NotAllowed (flat_map (fun ra => methods (fst ra)) with_path)
      end
  end.

(** ** The static-file rule

    [Flask(__name__)] registers [/static/<path:filename>] under the
    endpoint [static] before any rule of the application. *)
Definition Flask_url_map : list Rule :=
  add_url_rule "/static/<path:filename>" "static" [GET] [].

(** The response of [werkzeug.exceptions.NotFound]. *)
Definition not_found_response : Response :=
  {| status_code := 404;
     mimetype := "text/html";
     data := None;
     allow := [] |}.

(** [send_static_file(filename)], that is [send_from_directory] on the
    static folder. [folder] stands for the disk: for a request and a file
    name it gives the response [send_file] builds when the folder holds
    the file, and [None] when it does not, in which case [NotFound] is
    raised and answered with 404. *)
Definition send_static_file (folder : Request -> string -> option Response)
  (filename : string) (req : Request) : Response :=
  match folder req filename with
  | Some resp => resp
  | None => not_found_response
  end.

(** How a request ends. [NoRoute] is the case where no rule of the table
    has the path: Werkzeug's routing errors ([NotFound], or a redirect to a
    canonical URL); no view function runs. *)
Inductive Outcome : Type :=
| FromView (endpoint_ : string) (resp : Response)
| AutomaticOptions (resp : Response)
| MethodNotAllowed (resp : Response)
| NoRoute
| InternalServerError.

(** The view function that ran, if one did. *)
Definition invoked (o : Outcome) : option string :=
  match o with
  | FromView e _ => Some e
  | _ => None
  end.

(** The response sent, where the model determines it. *)
Definition response_of (o : Outcome) : option Response :=
  match o with
  | FromView _ r | AutomaticOptions r | MethodNotAllowed r => Some r
  | NoRoute | InternalServerError => None
  end.

(** A view function as [view_functions] holds it: one that takes no
    argument, or one that takes the single keyword argument [name]. *)
Inductive ViewFunction (S : Type) : Type :=
| NoArgument (f : Request -> S -> S * Response)
| OneArgument (name : string) (f : string -> Request -> S -> S * Response).
Arguments NoArgument {S} f.
Arguments OneArgument {S} name f.

(** The view called with [view_args] as keyword arguments: [None] is the
    [TypeError] of a call whose keyword arguments are not those of the
    function. *)
Definition call_view {S : Type} (view : ViewFunction S)
  (view_args : list (string * string)) (req : Request) (st : S)
  : option (S * Response) :=
  match view, view_args with
  | NoArgument f, [] => Some (f req st)
  | OneArgument name f, [(k, x)] =>
      if String.eqb name k then Some (f x req st) else None
  | _, _ => None
  end.

Section Dispatch.

(** [S] is the state of the Python process in which view functions run; a
    view receives the request and may change the state. *)
Context {S : Type}.
Variable view_functions : string -> option (ViewFunction S).

(** [Flask.wsgi_app] down to [dispatch_request]. *)
Definition wsgi_app (url_map : list Rule) (req : Request) (st : S)
  : S * Outcome :=
  match match_request url_map (method req) (path req) with
  | Unmatched => (st, NoRoute)
  | NotAllowed valid => (st, MethodNotAllowed (method_not_allowed_response valid))
  | Matched r view_args =>
      if provide_automatic_options r && bool_decide (method req = OPTIONS)
      then (st, AutomaticOptions (make_default_options_response (methods r)))
      else
        match view_functions (endpoint r) with
        | None => (st, InternalServerError)
        | Some view =>
            match call_view view view_args req st with
            | None => (st, InternalServerError)
            | Some (st', resp) =>
                (st', FromView (endpoint r)
                        (if bool_decide (method req = HEAD)
                         then without_body resp else resp))
            end
        end
  end.

End Dispatch.

End flask.

(* ===================================================================== *)
(** * ai_services/voice_transcription/app.py                              *)
(* ===================================================================== *)

Module app.

Import flask.

(** The state the module's code can reach: [os.environ], the rules of the
    module-level [app] object, and the static folder beside [app.py] as
    [send_static_file] finds it. *)
Record Process : Type := mkProcess {
  environ : gmap string (list N);
  url_map : list Rule;
  static_folder : Request -> string -> option Response
}.

Definition View : Type := Request -> Process -> Process * Response.

Definition health_payload : json :=
  JObj [ ("status", JStr "healthy");
         ("service", JStr "voice_transcription");
         ("version", JStr "1.0.0") ].

Definition root_payload : json :=
  JObj [ ("message", JStr "Voice Transcription Service");
         ("status", JStr "running");
         ("endpoints", JArr [ JStr "/health" ]) ].

(** [def health_check(): return jsonify({...})] *)
Definition health_check : View :=
  fun _ st => (st, jsonify health_payload).

(** [def root(): return jsonify({...})] *)
Definition root : View :=
  fun _ st => (st, jsonify root_payload).

(** The view [Flask(__name__)] registers under [static]. *)
Definition static (filename : string) : View :=
  fun req st => (st, send_static_file (static_folder st) filename req).

(** [app.view_functions]: the framework's [static] and the two decorated
    functions under their names. *)
Definition view_functions (endpoint_ : string)
  : option (ViewFunction Process) :=
  if String.eqb endpoint_ "static" then Some (OneArgument "filename" static)
  else if String.eqb endpoint_ "health_check" then Some (NoArgument health_check)
  else if String.eqb endpoint_ "root" then Some (NoArgument root)
  else None.

(** The rules of the table that the application's own decorators added:
    those whose endpoint is not the framework's [static]. *)
Definition decorated_rules (url_map_ : list Rule) : list Rule :=
  List.filter (fun r => negb (String.eqb (endpoint r) "static")) url_map_.

(** The module body, lines 11 to 30: [load_dotenv()], [app = Flask(__name__)],
    [CORS(app)] and the two [@app.route] decorators in source order.
    [env] is the environment the process was started with, [file] the
    bindings of the [.env] file. The repository has no [static] directory
    beside [app.py], so the static folder holds no file. *)
Definition import_module (env file : gmap string (list N)) : Process :=
  let environ1 := dotenv.load_dotenv file env in
  let url_map0 := Flask_url_map in
  let url_map1 := add_url_rule "/health" "health_check" [GET] url_map0 in
  let url_map2 := add_url_rule "/" "root" [GET] url_map1 in
  {| environ := environ1;
     url_map := url_map2;
     static_folder := fun _ _ => None |}.

(** Serving one request, and a sequence of them. *)
Definition handle (req : Request) (st : Process) : Process * Outcome :=
  wsgi_app view_functions (url_map st) req st.

Fixpoint serve (st : Process) (reqs : list Request) : Process * list Outcome :=
  match reqs with
  | [] => (st, [])
  | req :: rest =>
      let '(st1, o) := handle req st in
      let '(st2, os) := serve st1 rest in
      (st2, o :: os)
  end.

(** The process state once the module is loaded and [history] has been
    served. *)
Definition state_after (env file : gmap string (list N))
  (history : list Request) : Process :=
  fst (serve (import_module env file) history).

(** The arguments [app.run] is called with. *)
Record RunCall : Type := mkRunCall {
  host : string;
  port : Z;
  debug : bool
}.

Section Main.

Variable py : Py.Interpreter.

(** [if __name__ == '__main__':] lines 33 and 34. *)
Definition main (st : Process) : Py.result RunCall :=
  Py.bind (Py.int py
             (Py.environ_get (environ st) "PORT" (Py.VInt 9001)))
    (fun port_ =>
       Py.Return {| host := "0.0.0.0"; port := port_; debug := true |}).

(** [python app.py]: the module body, then the [__main__] block. *)
Definition start (env file : gmap string (list N)) : Py.result RunCall :=
  main (import_module env file).

End Main.

End app.
(* ===================================================================== *)
(** * Module-level Python: definitions and imports                        *)
(* ===================================================================== *)

Module PyModule.

Import Py.

(** A [def]: its name and, of its body, the attributes it calls on
    [self.service]. *)
Record FunctionDef : Type := mkFunctionDef {
  fn_name : string;
  fn_calls : list string
}.

(** What a module-level name can be bound to. [OBuiltin] is a callable
    of a library: calling it raises the exception given, or returns. *)
Inductive object : Type :=
| OClass (methods_ : list FunctionDef)
| OFunction (f : FunctionDef)
| OModule (name : string)
| OBuiltin (raises : option exn).

(** The statements that occur at the top level of the modelled files.
    Comments are not statements. A base of a class and the callee of a
    call are written [x.attr], as in [unittest.TestCase] and
    [unittest.main()]. *)
Inductive stmt : Type :=
| Import (module_ : string)
| FromImport (module_ : string) (name : string)
| ClassDef (name : string) (bases : list (string * string))
    (methods_ : list FunctionDef)
| Def (f : FunctionDef)
| CallAttr (x : string) (attr : string).

(** A source file: the top-level statements, and the body of its
    [if __name__ == "__main__":] block. *)
Record Source : Type := mkSource {
  body : list stmt;
  main_block : list stmt
}.

(** [import_table] is what the import system finds: for a dotted module
    name, the outcome of executing that module. [FromImport] is the case of
    a plain module (a [.py] file), whose names are those of its namespace. *)
Section Exec.

Variable import_table : gmap string (result (gmap string object)).

(** The value of [x.attr]: [x] must be bound, here to a module, and the
    module must have the attribute. *)
Definition get_attr (ns : gmap string object) (x attr : string)
  : result object :=
  match ns !! x with
  | None => Raise NameError
  | Some (OModule m) =>
      match import_table !! m with
      | Some (Return exported) =>
          match exported !! attr with
          | Some o => Return o
          | None => Raise AttributeError
          end
      | _ => Raise AttributeError
      end
  | Some _ => Raise AttributeError
  end.

(** The bases of a class statement are evaluated in order; each must be a
    class. *)
Fixpoint eval_bases (ns : gmap string object) (bases : list (string * string))
  : result unit :=
  match bases with
  | [] => Return tt
  | (x, attr) :: rest =>
      bind (get_attr ns x attr) (fun o =>
        match o with
        | OClass _ => eval_bases ns rest
        | _ => Raise TypeError
        end)
  end.

(** A call [x.attr()] as a statement. A library callable does what its
    object says; calling a class or a [def] binds no module-level name
    (what their bodies do is not part of this model); a module is not
    callable. *)
Definition call_attr (ns : gmap string object) (x attr : string)
  : result (gmap string object) :=
  bind (get_attr ns x attr) (fun o =>
    match o with
    | OBuiltin (Some e) => Raise e
    | OBuiltin None | OClass _ | OFunction _ => Return ns
    | OModule _ => Raise TypeError
    end).

Definition exec_stmt (ns : gmap string object) (s : stmt)
  : result (gmap string object) :=
  match s with
  | Import m =>
      match import_table !! m with
      | None => Raise ModuleNotFoundError
      | Some (Raise e) => Raise e
      | Some (Return _) => Return (<[m := OModule m]> ns)
      end
  | FromImport m name =>
      match import_table !! m with
      | None => Raise ModuleNotFoundError
      | Some (Raise e) => Raise e
      | Some (Return exported) =>
          match exported !! name with
          | Some o => Return (<[name := o]> ns)
          | None => Raise ImportError
          end
      end
  | ClassDef name bases ms =>
      bind (eval_bases ns bases) (fun _ => Return (<[name := OClass ms]> ns))
  | Def f => Return (<[fn_name f := OFunction f]> ns)
  | CallAttr x attr => call_attr ns x attr
  end.

Fixpoint exec_stmts (ns : gmap string object) (ss : list stmt)
  : result (gmap string object) :=
  match ss with
  | [] => Return ns
  | s :: rest => bind (exec_stmt ns s) (fun ns' => exec_stmts ns' rest)
  end.

(** Importing a file runs its top level; running it as a script runs the
    [__main__] block after that. *)
Definition import_source (src : Source) : result (gmap string object) :=
  exec_stmts ∅ (body src).

Definition run_script (src : Source) : result (gmap string object) :=
  bind (exec_stmts ∅ (body src)) (fun ns => exec_stmts ns (main_block src)).

End Exec.

(** The names a namespace gives access to: [defines_name] for a top-level
    binding, [defines_method] for a method of some class bound in it. *)
Definition defines_name (ns : gmap string object) (name : string) : Prop :=
  is_Some (ns !! name).

Definition defines_method (ns : gmap string object) (m : string) : Prop :=
  exists cls ms f,
    ns !! cls = Some (OClass ms) /\ In f ms /\ fn_name f = m.

End PyModule.

(* ===================================================================== *)
(** * The standard library's [unittest]                                   *)
(* ===================================================================== *)

Module unittest.

Import PyModule.

(** The module as far as the test file uses it: the class [TestCase], and
    [main], which runs the tests and then leaves through [sys.exit]. *)
Definition namespace : gmap string object :=
  {[ "TestCase" := OClass [];
     "main" := OBuiltin (Some Py.SystemExit) ]}.

End unittest.

(* ===================================================================== *)
(** * ai_services/pre_diagnosis_summary/pre_diagnosis_summary_service.py  *)
(* ===================================================================== *)

Module pre_diagnosis_summary_service.

Import PyModule.

Definition module_name : string :=
  "ai_services.pre_diagnosis_summary.pre_diagnosis_summary_service".

(** Eleven comment lines and a blank one: no statement. *)
Definition source : Source :=
  {| body := []; main_block := [] |}.

End pre_diagnosis_summary_service.

(* ===================================================================== *)
(** * .../tests/test_pre_diagnosis_summary_service.py                     *)
(* ===================================================================== *)

Module test_pre_diagnosis_summary_service.

Import PyModule.

Definition setUp : FunctionDef :=
  {| fn_name := "setUp"; fn_calls := [] |}.

Definition test_process_questionnaire_data : FunctionDef :=
  {| fn_name := "test_process_questionnaire_data";
     fn_calls := ["process_questionnaire_data"] |}.

Definition test_extract_key_medical_history : FunctionDef :=
  {| fn_name := "test_extract_key_medical_history";
     fn_calls := ["extract_key_medical_history"] |}.

Definition test_generate_summary : FunctionDef :=
  {| fn_name := "test_generate_summary";
     fn_calls := ["generate_summary"] |}.

Definition TestPreDiagnosisSummaryService : list FunctionDef :=
  [ setUp;
    test_process_questionnaire_data;
    test_extract_key_medical_history;
    test_generate_summary ].

Definition source : Source :=
  {| body :=
       [ Import "unittest";
         FromImport pre_diagnosis_summary_service.module_name
           "PreDiagnosisSummaryService";
         ClassDef "TestPreDiagnosisSummaryService"
           [ ("unittest", "TestCase") ]
           TestPreDiagnosisSummaryService ];
     main_block := [ CallAttr "unittest" "main" ] |}.

(** The class the file imports and the methods its tests call on an
    instance of it. *)
Definition imported_class : string := "PreDiagnosisSummaryService".

Definition exercised_methods : list string :=
  flat_map fn_calls TestPreDiagnosisSummaryService.

End test_pre_diagnosis_summary_service.

(* ===================================================================== *)
(** * The text [int()] accepts, as the language reference words it        *)
(* ===================================================================== *)

Module IntLiteral.

Import Py.

(** The reference for [int(x)] on a string: an integer in base 10,
    optionally preceded by [+] or [-] (with no space in between), with
    leading zeros allowed, optionally surrounded by whitespace, and with
    single underscores allowed between digits; digits are the characters
    with the Unicode property Nd. This module states that grammar on its
    own, as a right-linear grammar over code points read from left to
    right; it does not mention the functions of [Py]'s parser. *)

(** White space: tab to carriage return and the space among the ASCII
    characters, the Unicode white space beyond them. (The separators
    U+001C to U+001F, white space for [str.isspace], are not white space
    for [int()].) *)
Definition is_space (ch : N) : bool :=
  if (ch <? 127)%N
  then (((9 <=? ch) && (ch <=? 13)) || (ch =? 32))%N
  else Py_UNICODE_ISSPACE ch.

Definition plus_sign : N := 43%N.
Definition minus_sign : N := 45%N.
Definition low_line : N := 95%N.

Section Grammar.

Variable py : Interpreter.

(** Decimal digits: ['0'] to ['9'] among the ASCII characters, and beyond
    them the code points, white space apart, to which the interpreter's
    Unicode table gives a decimal value. *)
Definition is_decimal (ch : N) : bool :=
  if (ch <? 127)%N
  then ((48 <=? ch) && (ch <=? 57))%N
  else negb (Py_UNICODE_ISSPACE ch)
       && match Py_UNICODE_TODECIMAL py ch with
          | Some _ => true
          | None => false
          end.

(** [ws*] *)
Inductive trailing : list N -> Prop :=
| trailing_nil : trailing []
| trailing_cons ch u : is_space ch = true -> trailing u -> trailing (ch :: u).

(** [(["_"] digit)* ws*] *)
Inductive digit_tail : list N -> Prop :=
| tail_end u : trailing u -> digit_tail u
| tail_digit ch u :
    is_decimal ch = true -> digit_tail u -> digit_tail (ch :: u)
| tail_underscore ch u :
    is_decimal ch = true -> digit_tail u ->
    digit_tail (low_line :: ch :: u).

(** [digit (["_"] digit)* ws*] *)
Inductive unsigned : list N -> Prop :=
| unsigned_intro ch u :
    is_decimal ch = true -> digit_tail u -> unsigned (ch :: u).

(** [["+" | "-"] digit (["_"] digit)* ws*] *)
Inductive signed : list N -> Prop :=
| signed_plus u : unsigned u -> signed (plus_sign :: u)
| signed_minus u : unsigned u -> signed (minus_sign :: u)
| signed_none u : unsigned u -> signed u.

(** [ws* ["+" | "-"] digit (["_"] digit)* ws*] *)
Inductive literal : list N -> Prop :=
| literal_space ch u : is_space ch = true -> literal u -> literal (ch :: u)
| literal_signed u : signed u -> literal u.

(** A valid decimal integer string. *)
Definition int_literal (u : list N) : Prop := literal u.

(** The number of digit characters of a string. *)
Fixpoint count_digits (u : list N) : nat :=
  match u with
  | [] => 0%nat
  | ch :: u' => ((if is_decimal ch then 1 else 0) + count_digits u')%nat
  end.

End Grammar.

End IntLiteral.

(* ===================================================================== *)
(** * The same grammar on C strings                                       *)
(* ===================================================================== *)

Module CLiteral.

Import Py.

(** The language of [PyLong_FromString]: the grammar above over the
    characters of the transformed text, with [Py_ISSPACE] for white space
    and ['0'] to ['9'] for digits. *)

(** [ws*] *)
Inductive trailing : string -> Prop :=
| trailing_nil : trailing EmptyString
| trailing_cons c s :
    Py_ISSPACE c = true -> trailing s -> trailing (String c s).

(** [(["_"] digit)* ws*] *)
Inductive digit_tail : string -> Prop :=
| tail_end s : trailing s -> digit_tail s
| tail_digit c s :
    is_digit c = true -> digit_tail s -> digit_tail (String c s)
| tail_underscore c s :
    is_digit c = true -> digit_tail s ->
    digit_tail (String underscore (String c s)).

(** [digit (["_"] digit)* ws*] *)
Inductive unsigned : string -> Prop :=
| unsigned_intro c s :
    is_digit c = true -> digit_tail s -> unsigned (String c s).

(** [["+" | "-"] digit (["_"] digit)* ws*] *)
Inductive signed : string -> Prop :=
| signed_plus s : unsigned s -> signed (String "+"%char s)
| signed_minus s : unsigned s -> signed (String "-"%char s)
| signed_none s : unsigned s -> signed s.

(** [ws* ["+" | "-"] digit (["_"] digit)* ws*] *)
Inductive literal : string -> Prop :=
| literal_space c s : Py_ISSPACE c = true -> literal s -> literal (String c s)
| literal_signed s : signed s -> literal s.

Fixpoint count_digits (s : string) : nat :=
  match s with
  | EmptyString => 0%nat
  | String c s' => ((if is_digit c then 1 else 0) + count_digits s')%nat
  end.

End CLiteral.

(* ===================================================================== *)
(** * Shapes of a [PORT] value                                            *)
(* ===================================================================== *)

Module PortText.

Import Py.

(** Strings of white space only, the empty string included. *)
Fixpoint blank (u : list N) : bool :=
  match u with
  | [] => true
  | ch :: u' => IntLiteral.is_space ch && blank u'
  end.

(** Texts of the digits ['0'] to ['9'] only. *)
Fixpoint all_digits (s : string) : bool :=
  match s with
  | EmptyString => true
  | String c s' => is_digit c && all_digits s'
  end.

(** The number a row of decimal digits denotes, most significant digit
    first: a digit with [k] digits after it counts [10 ^ k] times. *)
Fixpoint positional (s : string) : Z :=
  match s with
  | EmptyString => 0
  | String c s' =>
      match digit_value c with Some d => d | None => 0 end
      * 10 ^ Z.of_nat (String.length s')
      + positional s'
  end.

End PortText.
(* ===================================================================== *)
(** * Properties of [PyLong_FromString]                                   *)
(* ===================================================================== *)

Module CFacts.

Import Py CLiteral.

(** Character classes are decided by running over the 256 characters. *)
Ltac each_char c :=
  destruct c as [[] [] [] [] [] [] [] []]; vm_compute; try discriminate;
  try (intuition congruence).

Lemma digit_char c :
  is_digit c = true ->
  Py_ISSPACE c = false /\ is_underscore c = false /\
  (ord c <? 127)%N = true /\
  c <> "+"%char /\ c <> "-"%char /\ c <> "?"%char /\ c <> " "%char.
Proof. each_char c. Qed.

Lemma space_char c :
  Py_ISSPACE c = true ->
  is_digit c = false /\ is_underscore c = false /\
  (ord c <? 127)%N = true /\
  c <> "+"%char /\ c <> "-"%char /\ c <> "?"%char.
Proof. each_char c. Qed.

Lemma underscore_char c :
  is_underscore c = true -> c = underscore.
Proof. each_char c. Qed.

Lemma parse_sign_cons c s :
  parse_sign (String c s) =
  if Ascii.eqb c "+"%char then (1, s)
  else if Ascii.eqb c "-"%char then (-1, s)
  else (1, String c s).
Proof. destruct c as [[] [] [] [] [] [] [] []]; reflexivity. Qed.

(** ** What the parser accepts is a literal *)

Lemma skip_spaces_trailing s :
  skip_spaces s = EmptyString -> trailing s.
Proof.
  induction s as [|c s IH]; simpl.
  - intros _. constructor.
  - destruct (Py_ISSPACE c) eqn:Hc; [|discriminate].
    intros H. constructor; auto.
Qed.

Lemma skip_spaces_literal s :
  literal (skip_spaces s) -> literal s.
Proof.
  induction s as [|c s IH]; simpl; [auto|].
  destruct (Py_ISSPACE c) eqn:Hc; [|auto].
  intros H. apply literal_space; auto.
Qed.

(** The scan, started after a digit ([prev_us = false]) or after an
    underscore ([prev_us = true]), has read a [digit_tail] once the unread
    text is white space to the end. *)
Lemma scan_digits_sound s :
  forall prev acc n v d rest,
    scan_digits prev acc n s = Some (v, d, rest) ->
    trailing rest ->
    if prev
    then exists c s', s = String c s' /\ is_digit c = true
                      /\ digit_tail s'
    else digit_tail s.
Proof.
  induction s as [|c s IH]; intros prev acc n v d rest Hscan Hrest.
  - simpl in Hscan. destruct prev; [discriminate|].
    apply tail_end. constructor.
  - simpl in Hscan.
    destruct (is_underscore c) eqn:Hus.
    + destruct prev; [discriminate|].
      apply underscore_char in Hus. subst c.
      specialize (IH true acc n v d rest Hscan Hrest).
      destruct IH as (c' & s' & -> & Hd & Ht).
      apply tail_underscore; assumption.
    + destruct (digit_value c) as [dv|] eqn:Hdv.
      * assert (Hd : is_digit c = true) by (unfold is_digit; rewrite Hdv; reflexivity).
        specialize (IH false _ _ v d rest Hscan Hrest). simpl in IH.
        destruct prev.
        -- exists c, s. auto.
        -- apply tail_digit; assumption.
      * destruct prev; [discriminate|].
        inversion Hscan; subst. apply tail_end. assumption.
Qed.

Lemma scan_digits_unsigned c s v d rest :
  is_underscore c = false ->
  scan_digits false 0 0%nat (String c s) = Some (v, d, rest) ->
  d <> 0%nat ->
  trailing rest ->
  unsigned (String c s).
Proof.
  intros Hus Hscan Hd Hrest. simpl in Hscan. rewrite Hus in Hscan.
  destruct (digit_value c) as [dv|] eqn:Hdv.
  - constructor.
    + unfold is_digit. rewrite Hdv. reflexivity.
    + exact (scan_digits_sound s false _ _ v d rest Hscan Hrest).
  - inversion Hscan; subst. congruence.
Qed.

Lemma PyLong_FromString_sound max s n :
  PyLong_FromString max s = Some n -> literal s.
Proof.
  unfold PyLong_FromString. intros H.
  apply skip_spaces_literal. apply literal_signed.
  destruct (skip_spaces s) as [|c0 s0] eqn:Hs1; [simpl in H; discriminate|].
  rewrite parse_sign_cons in H.
  assert (Hbody : forall sign t,
    match t with
    | EmptyString => None
    | String c _ =>
        if is_underscore c then None
        else match scan_digits false 0 0%nat t with
             | None => None
             | Some (v, digits, rest) =>
                 if (digits =? 0)%nat then None
                 else if exceeds_limit max digits then None
                 else match skip_spaces rest with
                      | EmptyString => Some (sign * v)
                      | String _ _ => None
                      end
             end
    end = Some n -> unsigned t).
  { intros sign [|c t] Hm; [discriminate|].
    destruct (is_underscore c) eqn:Hus; [discriminate|].
    destruct (scan_digits false 0 0%nat (String c t)) as [[[v d] rest]|] eqn:Hscan;
      [|discriminate].
    destruct (d =? 0)%nat eqn:Hd0; [discriminate|].
    destruct (exceeds_limit max d); [discriminate|].
    destruct (skip_spaces rest) eqn:Hrest; [|discriminate].
    eapply scan_digits_unsigned; eauto.
    - apply Nat.eqb_neq. exact Hd0.
    - apply skip_spaces_trailing. exact Hrest. }
  destruct (Ascii.eqb c0 "+"%char) eqn:Hplus.
  - apply Ascii.eqb_eq in Hplus. subst c0.
    apply signed_plus. eapply Hbody. exact H.
  - destruct (Ascii.eqb c0 "-"%char) eqn:Hminus.
    + apply Ascii.eqb_eq in Hminus. subst c0.
      apply signed_minus. eapply Hbody. exact H.
    + apply signed_none. eapply Hbody. exact H.
Qed.

Lemma trailing_skipped s :
  trailing s ->
  skip_spaces s = EmptyString /\ count_digits s = 0%nat.
Proof.
  induction 1 as [|c s Hc Hs [IH1 IH2]]; [auto|].
  simpl. rewrite Hc, IH2. destruct (space_char _ Hc) as [-> _]. auto.
Qed.

Lemma digit_value_of_digit c :
  is_digit c = true -> exists d, digit_value c = Some d.
Proof. unfold is_digit. destruct (digit_value c); [eauto | discriminate]. Qed.

(** On a [digit_tail] the scan reads every digit and stops where the
    closing white space begins. *)
Lemma scan_digits_complete s :
  digit_tail s ->
  forall acc n, exists v rest,
    scan_digits false acc n s = Some (v, (n + count_digits s)%nat, rest)
    /\ skip_spaces rest = EmptyString.
Proof.
  induction 1 as [s Hs | c s Hc Hs IH | c s Hc Hs IH]; intros acc n.
  - destruct (trailing_skipped s Hs) as [Hskip Hcount].
    rewrite Hcount, Nat.add_0_r.
    destruct Hs as [|c s Hc Hs].
    + exists acc, EmptyString. auto.
    + destruct (space_char _ Hc) as (Hd & Hus & _).
      exists acc, (String c s). split; [|assumption].
      simpl. rewrite Hus. unfold is_digit in Hd.
      destruct (digit_value c); [discriminate | reflexivity].
  - destruct (digit_char _ Hc) as (_ & Hus & _).
    destruct (digit_value_of_digit c Hc) as [d Hd].
    destruct (IH (10 * acc + d) (S n)) as (v & rest & Hscan & Hrest).
    exists v, rest. split; [|assumption].
    replace (n + count_digits (String c s))%nat
      with (S n + count_digits s)%nat by (simpl; rewrite Hc; lia).
    simpl. rewrite Hus, Hd. exact Hscan.
  - destruct (digit_char _ Hc) as (_ & Hus & _).
    destruct (digit_value_of_digit c Hc) as [d Hd].
    destruct (IH (10 * acc + d) (S n)) as (v & rest & Hscan & Hrest).
    exists v, rest. split; [|assumption].
    replace (n + count_digits (String underscore (String c s)))%nat
      with (S n + count_digits s)%nat
      by (cbn [count_digits]; rewrite Hc;
          replace (is_digit underscore) with false by reflexivity; lia).
    cbn [scan_digits].
    replace (is_underscore underscore) with true by reflexivity.
    rewrite Hus, Hd. exact Hscan.
Qed.

Lemma PyLong_FromString_unsigned max sign s :
  unsigned s ->
  exceeds_limit max (count_digits s) = false ->
  exists v,
    match s with
    | EmptyString => None
    | String c _ =>
        if is_underscore c then None
        else match scan_digits false 0 0%nat s with
             | None => None
             | Some (v, digits, rest) =>
                 if (digits =? 0)%nat then None
                 else if exceeds_limit max digits then None
                 else match skip_spaces rest with
                      | EmptyString => Some (sign * v)
                      | String _ _ => None
                      end
             end
    end = Some (sign * v).
Proof.
  intros Hu Hlimit. inversion Hu as [c s' Hc Hs Heq]. subst s.
  destruct (digit_char _ Hc) as (_ & Hus & _).
  destruct (scan_digits_complete (String c s') (tail_digit c s' Hc Hs) 0 0%nat)
    as (v & rest & Hscan & Hrest).
  rewrite Nat.add_0_l in Hscan.
  exists v. rewrite Hus, Hscan.
  replace (count_digits (String c s') =? 0)%nat with false.
  - rewrite Hlimit, Hrest. reflexivity.
  - symmetry. apply Nat.eqb_neq. simpl. rewrite Hc. lia.
Qed.

Lemma PyLong_FromString_signed max s :
  signed s ->
  exceeds_limit max (count_digits s) = false ->
  exists n, PyLong_FromString max s = Some n.
Proof.
  intros Hs Hlimit. unfold PyLong_FromString.
  destruct Hs as [s Hu | s Hu | s Hu].
  - simpl in Hlimit.
    destruct (PyLong_FromString_unsigned max 1 s Hu Hlimit) as [v Hv].
    exists (1 * v). cbn [skip_spaces parse_sign]. exact Hv.
  - simpl in Hlimit.
    destruct (PyLong_FromString_unsigned max (-1) s Hu Hlimit) as [v Hv].
    exists (-1 * v). cbn [skip_spaces parse_sign]. exact Hv.
  - destruct (PyLong_FromString_unsigned max 1 s Hu Hlimit) as [v Hv].
    exists (1 * v). inversion Hu as [c s' Hc Hs' Heq]. subst s.
    destruct (digit_char _ Hc) as (Hsp & _ & _ & Hplus & Hminus & _).
    cbn [skip_spaces]. rewrite Hsp, parse_sign_cons.
    apply Ascii.eqb_neq in Hplus, Hminus. rewrite Hplus, Hminus.
    exact Hv.
Qed.

Lemma PyLong_FromString_complete max s :
  literal s ->
  exceeds_limit max (count_digits s) = false ->
  exists n, PyLong_FromString max s = Some n.
Proof.
  induction 1 as [c s Hc Hs IH | s Hs]; intros Hlimit.
  - destruct (space_char _ Hc) as (Hd & _).
    simpl in Hlimit. rewrite Hd in Hlimit.
    destruct (IH Hlimit) as [n Hn]. exists n.
    unfold PyLong_FromString in *. cbn [skip_spaces]. rewrite Hc. exact Hn.
  - apply PyLong_FromString_signed; assumption.
Qed.

(** ** The digit limit *)

Lemma skip_spaces_count s :
  count_digits (skip_spaces s) = count_digits s.
Proof.
  induction s as [|c s IH]; [reflexivity|]. simpl.
  destruct (Py_ISSPACE c) eqn:Hc; [|reflexivity].
  destruct (space_char _ Hc) as [-> _]. exact IH.
Qed.

Lemma parse_sign_count s :
  count_digits (snd (parse_sign s)) = count_digits s.
Proof.
  destruct s as [|c s]; [reflexivity|]. rewrite parse_sign_cons.
  destruct (Ascii.eqb c "+"%char) eqn:Hp.
  - apply Ascii.eqb_eq in Hp. subst. reflexivity.
  - destruct (Ascii.eqb c "-"%char) eqn:Hm; [|reflexivity].
    apply Ascii.eqb_eq in Hm. subst. reflexivity.
Qed.

(** The counter of the scan is the number of digits it has passed. *)
Lemma scan_digits_count s :
  forall prev acc n v d rest,
    scan_digits prev acc n s = Some (v, d, rest) ->
    (d + count_digits rest = n + count_digits s)%nat.
Proof.
  induction s as [|c s IH]; intros prev acc n v d rest Hscan; simpl in Hscan.
  - destruct prev; inversion Hscan; subst. reflexivity.
  - destruct (is_underscore c) eqn:Hus.
    + destruct prev; [discriminate|].
      apply IH in Hscan. rewrite Hscan.
      apply underscore_char in Hus. subst c. reflexivity.
    + destruct (digit_value c) as [dv|] eqn:Hdv.
      * apply IH in Hscan. rewrite Hscan. simpl.
        unfold is_digit. rewrite Hdv. lia.
      * destruct prev; inversion Hscan; subst. reflexivity.
Qed.

Lemma PyLong_FromString_limit max s n :
  PyLong_FromString max s = Some n ->
  exceeds_limit max (count_digits s) = false.
Proof.
  unfold PyLong_FromString. intros H.
  rewrite <- (skip_spaces_count s), <- (parse_sign_count (skip_spaces s)).
  destruct (parse_sign (skip_spaces s)) as [sign s2]. simpl snd.
  destruct s2 as [|c s2]; [discriminate|].
  destruct (is_underscore c); [discriminate|].
  destruct (scan_digits false 0 0%nat (String c s2)) as [[[v d] rest]|] eqn:Hscan;
    [|discriminate].
  destruct (d =? 0)%nat; [discriminate|].
  destruct (exceeds_limit max d) eqn:Hlimit; [discriminate|].
  destruct (skip_spaces rest) eqn:Hrest; [|discriminate].
  apply scan_digits_count in Hscan.
  apply skip_spaces_trailing, trailing_skipped in Hrest.
  destruct Hrest as [_ Hrest]. rewrite Hrest in Hscan.
  replace (count_digits (String c s2)) with d by lia. exact Hlimit.
Qed.

(** ** The characters of a literal *)

Lemma trailing_chars s :
  trailing s -> forall c, In c (list_ascii_of_string s) -> Py_ISSPACE c = true.
Proof.
  induction 1 as [|c0 s Hc Hs IH]; intros c; simpl; [tauto|].
  intros [<- | Hin]; auto.
Qed.

(** A literal is made of white space, digits, signs and underscores. *)
Lemma digit_tail_chars s :
  digit_tail s ->
  forall c, In c (list_ascii_of_string s) ->
            c <> "?"%char /\ ord c <> 127%N.
Proof.
  induction 1 as [s Hs | c0 s Hc Hs IH | c0 s Hc Hs IH]; intros c; simpl.
  - intros Hin. apply (trailing_chars s Hs) in Hin.
    destruct (space_char _ Hin) as (_ & _ & Hlow & _ & _ & Hq).
    apply N.ltb_lt in Hlow. split; [assumption | lia].
  - intros [<- | Hin]; [|auto].
    destruct (digit_char _ Hc) as (_ & _ & Hlow & _ & _ & Hq & _).
    apply N.ltb_lt in Hlow. split; [assumption | lia].
  - intros [<- | [<- | Hin]]; [split; [discriminate | discriminate] | | auto].
    destruct (digit_char _ Hc) as (_ & _ & Hlow & _ & _ & Hq & _).
    apply N.ltb_lt in Hlow. split; [assumption | lia].
Qed.

Lemma literal_chars s :
  literal s ->
  forall c, In c (list_ascii_of_string s) ->
            c <> "?"%char /\ ord c <> 127%N.
Proof.
  induction 1 as [c0 s Hc Hs IH | s Hs]; intros c; simpl.
  - intros [<- | Hin]; [|auto].
    destruct (space_char _ Hc) as (_ & _ & Hlow & _ & _ & Hq).
    apply N.ltb_lt in Hlow. split; [assumption | lia].
  - assert (Hu : forall t, unsigned t ->
              forall c, In c (list_ascii_of_string t) ->
                        c <> "?"%char /\ ord c <> 127%N).
    { intros t [c0 t' Hc0 Ht] c'. simpl. intros [<- | Hin].
      - destruct (digit_char _ Hc0) as (_ & _ & Hlow & _ & _ & Hq & _).
        apply N.ltb_lt in Hlow. split; [assumption | lia].
      - apply (digit_tail_chars t' Ht). assumption. }
    destruct Hs as [t Ht | t Ht | t Ht]; simpl.
    + intros [<- | Hin]; [split; discriminate | apply (Hu t Ht); assumption].
    + intros [<- | Hin]; [split; discriminate | apply (Hu t Ht); assumption].
    + apply (Hu t Ht).
Qed.

End CFacts.

(* ===================================================================== *)
(** * The parser on rows of digits and on padded texts                    *)
(* ===================================================================== *)

Module RowFacts.

Import Py CLiteral PortText.

Lemma append_nil_l (s : string) : ("" ++ s)%string = s.
Proof. reflexivity. Qed.

Lemma append_cons c (a b : string) :
  (String c a ++ b)%string = String c (a ++ b).
Proof. reflexivity. Qed.

Lemma append_nil_r (s : string) : (s ++ "")%string = s.
Proof.
  induction s as [|c s IH]; [reflexivity|].
  rewrite append_cons, IH. reflexivity.
Qed.

(** ** Rows of digits *)

(** The scan over a row of digits followed by [rest] is the scan over
    [rest], with the row's value shifted into the accumulator. *)
Lemma scan_digits_row a :
  all_digits a = true ->
  forall acc n rest,
    scan_digits false acc n (a ++ rest) =
    scan_digits false
      (acc * 10 ^ Z.of_nat (String.length a) + positional a)
      (n + String.length a) rest.
Proof.
  induction a as [|c a IH]; intros Ha acc n rest.
  - rewrite append_nil_l. cbn [String.length positional Z.of_nat].
    rewrite Z.pow_0_r, Z.mul_1_r, Z.add_0_r, Nat.add_0_r. reflexivity.
  - simpl in Ha. apply andb_true_iff in Ha. destruct Ha as [Hc Ha].
    destruct (CFacts.digit_char _ Hc) as (_ & Hus & _).
    destruct (CFacts.digit_value_of_digit c Hc) as [d Hd].
    rewrite append_cons. cbn [scan_digits positional String.length].
    rewrite Hus, Hd, (IH Ha).
    f_equal.
    + rewrite Nat2Z.inj_succ, Z.pow_succ_r by lia. ring.
    + lia.
Qed.

Lemma length_le_limit max n :
  (n <= MAX_STR_DIGITS_THRESHOLD)%nat -> exceeds_limit max n = false.
Proof.
  intros H. unfold exceeds_limit.
  replace (MAX_STR_DIGITS_THRESHOLD <? n)%nat with false; [reflexivity|].
  symmetry. apply Nat.ltb_ge. exact H.
Qed.

(** The parser on a non-empty row of digits after the sign has been
    read. *)
Lemma PyLong_body_row max sign c s :
  all_digits (String c s) = true ->
  (String.length (String c s) <= MAX_STR_DIGITS_THRESHOLD)%nat ->
  (if is_underscore c then None
   else match scan_digits false 0 0%nat (String c s) with
        | None => None
        | Some (v, digits, rest) =>
            if (digits =? 0)%nat then None
            else if exceeds_limit max digits then None
            else match skip_spaces rest with
                 | EmptyString => Some (sign * v)
                 | String _ _ => None
                 end
        end) = Some (sign * positional (String c s)).
Proof.
  intros Hd Hlen.
  pose proof (scan_digits_row (String c s) Hd 0 0%nat EmptyString) as Hscan.
  rewrite append_nil_r in Hscan. rewrite Hscan.
  assert (Hc : is_digit c = true)
    by (simpl in Hd; apply andb_true_iff in Hd; tauto).
  destruct (CFacts.digit_char _ Hc) as (_ & -> & _).
  cbn [scan_digits]. rewrite Nat.add_0_l.
  rewrite (length_le_limit max _ Hlen).
  cbn [String.length Nat.eqb skip_spaces]. rewrite Z.mul_0_l, Z.add_0_l.
  reflexivity.
Qed.

(** The parser on a row of digits, bare or signed. *)
Lemma PyLong_FromString_row max s :
  s <> EmptyString ->
  all_digits s = true ->
  (String.length s <= MAX_STR_DIGITS_THRESHOLD)%nat ->
  PyLong_FromString max s = Some (positional s)
  /\ PyLong_FromString max (String "+" s) = Some (positional s)
  /\ PyLong_FromString max (String "-" s) = Some (- positional s).
Proof.
  intros Hne Hd Hlen. destruct s as [|c s]; [congruence|].
  assert (Hc : is_digit c = true)
    by (simpl in Hd; apply andb_true_iff in Hd; tauto).
  destruct (CFacts.digit_char _ Hc) as (Hsp & Hus & _ & Hplus & Hminus & _).
  unfold PyLong_FromString.
  repeat split.
  - cbn [skip_spaces]. rewrite Hsp, CFacts.parse_sign_cons.
    apply Ascii.eqb_neq in Hplus, Hminus. rewrite Hplus, Hminus.
    rewrite (PyLong_body_row max 1 c s Hd Hlen).
    rewrite Z.mul_1_l. reflexivity.
  - cbn [skip_spaces].
    replace (Py_ISSPACE "+") with false by reflexivity.
    cbn [parse_sign].
    rewrite (PyLong_body_row max 1 c s Hd Hlen).
    rewrite Z.mul_1_l. reflexivity.
  - cbn [skip_spaces].
    replace (Py_ISSPACE "-") with false by reflexivity.
    cbn [parse_sign].
    rewrite (PyLong_body_row max (-1) c s Hd Hlen).
    replace (-1 * positional (String c s)) with (- positional (String c s)) by lia.
    reflexivity.
Qed.

(** ** A single underscore between digits *)

(** Reading an underscore and then a digit leaves the scan where reading
    the digit alone does. *)
Lemma scan_digits_underscore acc n c r :
  is_digit c = true ->
  scan_digits false acc n (String underscore (String c r)) =
  scan_digits false acc n (String c r).
Proof.
  intros Hc.
  destruct (CFacts.digit_char _ Hc) as (_ & Hus & _).
  destruct (CFacts.digit_value_of_digit c Hc) as [d Hd].
  cbn [scan_digits].
  replace (is_underscore underscore) with true by reflexivity.
  rewrite Hus, Hd. reflexivity.
Qed.

Lemma PyLong_FromString_underscore max a b :
  a <> EmptyString -> b <> EmptyString ->
  all_digits a = true -> all_digits b = true ->
  PyLong_FromString max (a ++ String underscore b) =
  PyLong_FromString max (a ++ b).
Proof.
  intros Ha0 Hb0 Ha Hb.
  destruct a as [|ca a]; [congruence|]. destruct b as [|cb b]; [congruence|].
  assert (Hcb : is_digit cb = true)
    by (simpl in Hb; apply andb_true_iff in Hb; tauto).
  assert (Hca : is_digit ca = true)
    by (simpl in Ha; apply andb_true_iff in Ha; tauto).
  unfold PyLong_FromString. rewrite !append_cons.
  destruct (CFacts.digit_char _ Hca) as (Hsp & Hus & _ & Hplus & Hminus & _).
  cbn [skip_spaces]. rewrite Hsp, !CFacts.parse_sign_cons.
  apply Ascii.eqb_neq in Hplus, Hminus. rewrite Hplus, Hminus, Hus.
  rewrite <- !append_cons.
  rewrite !(scan_digits_row _ Ha), scan_digits_underscore by assumption.
  reflexivity.
Qed.

(** ** White space around the text *)

Lemma skip_spaces_lead w t :
  trailing w -> skip_spaces (w ++ t) = skip_spaces t.
Proof.
  induction 1 as [|c w Hc Hw IH]; [reflexivity|].
  rewrite append_cons. cbn [skip_spaces]. rewrite Hc. exact IH.
Qed.

Lemma skip_spaces_trail t w :
  trailing w ->
  (skip_spaces t = EmptyString /\ skip_spaces (t ++ w) = EmptyString)
  \/ (exists c r, skip_spaces t = String c r
                  /\ skip_spaces (t ++ w) = String c (r ++ w)).
Proof.
  intros Hw. induction t as [|c t IH].
  - left. split; [reflexivity|].
    rewrite append_nil_l. apply (CFacts.trailing_skipped w Hw).
  - rewrite append_cons. cbn [skip_spaces].
    destruct (Py_ISSPACE c); [exact IH|].
    right. exists c, t. auto.
Qed.

(** White space after the text does not change what the scan reads. *)
Lemma scan_digits_trail w :
  trailing w ->
  forall t prev acc n,
    scan_digits prev acc n (t ++ w) =
    match scan_digits prev acc n t with
    | None => None
    | Some (v, d, rest) => Some (v, d, (rest ++ w)%string)
    end.
Proof.
  intros Hw. induction t as [|c t IH]; intros prev acc n.
  - rewrite append_nil_l. cbn [scan_digits].
    destruct Hw as [|c w Hc Hw]; [destruct prev; reflexivity|].
    destruct (CFacts.space_char _ Hc) as (Hd & Hus & _).
    cbn [scan_digits]. rewrite Hus. unfold is_digit in Hd.
    destruct (digit_value c); [discriminate|]. destruct prev; reflexivity.
  - rewrite append_cons. cbn [scan_digits].
    destruct (is_underscore c).
    + destruct prev; [reflexivity | apply IH].
    + destruct (digit_value c); [apply IH|]. destruct prev; reflexivity.
Qed.

Lemma PyLong_FromString_lead max w t :
  trailing w ->
  PyLong_FromString max (w ++ t) = PyLong_FromString max t.
Proof.
  intros Hw. unfold PyLong_FromString. rewrite (skip_spaces_lead w t Hw).
  reflexivity.
Qed.

Lemma PyLong_FromString_trail max t w :
  trailing w ->
  PyLong_FromString max (t ++ w) = PyLong_FromString max t.
Proof.
  intros Hw.
  assert (Hbody : forall sign s2,
    match (s2 ++ w)%string with
    | EmptyString => None
    | String c _ =>
        if is_underscore c then None
        else match scan_digits false 0 0%nat (s2 ++ w) with
             | None => None
             | Some (v, digits, rest) =>
                 if (digits =? 0)%nat then None
                 else if exceeds_limit max digits then None
                 else match skip_spaces rest with
                      | EmptyString => Some (sign * v)
                      | String _ _ => None
                      end
             end
    end =
    match s2 with
    | EmptyString => None
    | String c _ =>
        if is_underscore c then None
        else match scan_digits false 0 0%nat s2 with
             | None => None
             | Some (v, digits, rest) =>
                 if (digits =? 0)%nat then None
                 else if exceeds_limit max digits then None
                 else match skip_spaces rest with
                      | EmptyString => Some (sign * v)
                      | String _ _ => None
                      end
             end
    end).
  { intros sign s2. rewrite (scan_digits_trail w Hw).
    destruct s2 as [|c s2].
    - rewrite append_nil_l. cbn [scan_digits].
      destruct Hw as [|c w Hc Hw]; [reflexivity|].
      destruct (CFacts.space_char _ Hc) as (_ & -> & _). reflexivity.
    - rewrite append_cons.
      destruct (is_underscore c); [reflexivity|].
      destruct (scan_digits false 0 0%nat (String c s2)) as [[[v d] rest]|];
        [|reflexivity].
      destruct (d =? 0)%nat; [reflexivity|].
      destruct (exceeds_limit max d); [reflexivity|].
      destruct (skip_spaces_trail rest w Hw)
        as [[-> ->] | (c' & r & -> & ->)]; reflexivity. }
  unfold PyLong_FromString.
  destruct (skip_spaces_trail t w Hw) as [[-> ->] | (c & r & -> & ->)];
    [reflexivity|].
  rewrite !CFacts.parse_sign_cons.
  destruct (Ascii.eqb c "+"%char); [apply Hbody|].
  destruct (Ascii.eqb c "-"%char); [apply Hbody|].
  exact (Hbody 1 (String c r)).
Qed.

End RowFacts.

(* ===================================================================== *)
(** * Properties of [int()] on a [str]                                    *)
(* ===================================================================== *)

Module IntFacts.

Import Py IntLiteral.

Section WithInterpreter.

Variable py : Interpreter.

Local Abbreviation T := (transform_loop py).

(** ** Code points below 127 *)

Lemma ord_low ch : (ch <? 127)%N = true -> ord (ascii_of_N ch) = ch.
Proof.
  intros H. apply N.ltb_lt in H. unfold ord.
  apply N_ascii_embedding. lia.
Qed.

Lemma low_space ch :
  (ch <? 127)%N = true -> Py_ISSPACE (ascii_of_N ch) = is_space ch.
Proof.
  intros H. unfold Py_ISSPACE, is_space. rewrite (ord_low ch H), H.
  reflexivity.
Qed.

Lemma low_decimal ch :
  (ch <? 127)%N = true -> is_digit (ascii_of_N ch) = is_decimal py ch.
Proof.
  intros H. unfold is_digit, digit_value, is_decimal.
  rewrite (ord_low ch H), H.
  destruct ((48 <=? ch)%N && (ch <=? 57)%N); reflexivity.
Qed.

Lemma decimal_char_digit d : is_digit (decimal_char d) = true.
Proof. destruct d; reflexivity. Qed.

Lemma space_not_decimal ch : is_space ch = true -> is_decimal py ch = false.
Proof.
  destruct (ch <? 127)%N eqn:Hlow.
  - rewrite <- (low_space ch Hlow), <- (low_decimal ch Hlow).
    intros H. apply (CFacts.space_char _ H).
  - unfold is_space, is_decimal. rewrite Hlow. intros ->. reflexivity.
Qed.

(** ** The head of a transformed string *)

Lemma T_nil_inv u : T u = EmptyString -> u = [].
Proof.
  destruct u as [|ch u]; [reflexivity|]. simpl.
  destruct (ch <? 127)%N; [discriminate|].
  destruct (Py_UNICODE_ISSPACE ch); [discriminate|].
  destruct (Py_UNICODE_TODECIMAL py ch); discriminate.
Qed.

(** It is the code point itself, a space that stands for a Unicode space,
    the digit of a Unicode decimal, or the final ['?']. *)
Lemma T_cons_inv u c t :
  T u = String c t ->
  exists ch u0, u = ch :: u0 /\
    (((ch <? 127)%N = true /\ c = ascii_of_N ch /\ t = T u0) \/
     ((ch <? 127)%N = false /\ Py_UNICODE_ISSPACE ch = true /\
      c = " "%char /\ t = T u0) \/
     ((ch <? 127)%N = false /\ Py_UNICODE_ISSPACE ch = false /\
      exists d, Py_UNICODE_TODECIMAL py ch = Some d /\
                c = decimal_char d /\ t = T u0) \/
     (c = "?"%char /\ t = EmptyString)).
Proof.
  destruct u as [|ch u0]; [discriminate|]. simpl. intros H.
  exists ch, u0. split; [reflexivity|].
  destruct (ch <? 127)%N eqn:Hlow.
  - inversion H; subst. left. auto.
  - destruct (Py_UNICODE_ISSPACE ch) eqn:Hsp.
    + inversion H; subst. right. left. auto.
    + destruct (Py_UNICODE_TODECIMAL py ch) as [d|] eqn:Hd;
        inversion H; subst.
      * right. right. left. eauto 10.
      * right. right. right. auto.
Qed.

Lemma T_space_inv u c t :
  T u = String c t -> Py_ISSPACE c = true ->
  exists ch u0, u = ch :: u0 /\ is_space ch = true /\ t = T u0.
Proof.
  intros H Hc. apply T_cons_inv in H.
  destruct H as (ch & u0 & -> & [(Hlow & -> & ->) |
    [(Hlow & Hsp & -> & ->) | [(Hlow & Hsp & d & Hd & -> & ->) | (-> & _)]]]).
  - exists ch, u0. rewrite <- (low_space ch Hlow). auto.
  - exists ch, u0. unfold is_space. rewrite Hlow. auto.
  - destruct d; discriminate.
  - discriminate.
Qed.

Lemma T_digit_inv u c t :
  T u = String c t -> is_digit c = true ->
  exists ch u0, u = ch :: u0 /\ is_decimal py ch = true /\ t = T u0.
Proof.
  intros H Hc. apply T_cons_inv in H.
  destruct H as (ch & u0 & -> & [(Hlow & -> & ->) |
    [(Hlow & Hsp & -> & ->) | [(Hlow & Hsp & d & Hd & -> & ->) | (-> & _)]]]).
  - exists ch, u0. rewrite <- (low_decimal ch Hlow). auto.
  - discriminate.
  - exists ch, u0. unfold is_decimal. rewrite Hlow, Hsp, Hd. auto.
  - discriminate.
Qed.

(** A character that is no space, no digit and no ['?'] stands for
    itself. *)
Lemma T_plain_inv u c t :
  T u = String c t ->
  c <> " "%char -> c <> "?"%char -> is_digit c = false ->
  exists u0, u = ord c :: u0 /\ t = T u0.
Proof.
  intros H Hsp Hq Hd. apply T_cons_inv in H.
  destruct H as (ch & u0 & -> & [(Hlow & -> & ->) |
    [(_ & _ & -> & _) | [(_ & _ & d & _ & -> & _) | (-> & _)]]]).
  - exists u0. rewrite (ord_low ch Hlow). auto.
  - congruence.
  - rewrite decimal_char_digit in Hd. discriminate.
  - congruence.
Qed.

(** ** The ASCII shortcut

    On an ASCII string the loop and the string itself differ at code point
    127 only, and there the parser refuses both. *)

Lemma loop_of_low u :
  forallb (fun ch => (ch <? 127)%N) u = true -> T u = ascii_text u.
Proof.
  induction u as [|ch u IH]; [reflexivity|]. simpl.
  intros H. apply andb_true_iff in H. destruct H as [Hch Hu].
  rewrite Hch. unfold ascii_text in *. simpl. rewrite (IH Hu). reflexivity.
Qed.

Lemma ascii_with_delete u :
  PyUnicode_IS_ASCII u = true ->
  forallb (fun ch => (ch <? 127)%N) u = false ->
  (exists c, In c (list_ascii_of_string (ascii_text u)) /\ ord c = 127%N)
  /\ In "?"%char (list_ascii_of_string (T u)).
Proof.
  induction u as [|ch u IH]; [discriminate|]. simpl.
  intros Hascii Hlow.
  apply andb_true_iff in Hascii. destruct Hascii as [Hch Hu].
  unfold ascii_text. simpl.
  destruct (ch <? 127)%N eqn:Hch'.
  - simpl in Hlow. destruct (IH Hu Hlow) as [(c & Hin & Hc) Hq].
    split; [exists c; auto | simpl; auto].
  - assert (ch = 127%N)
      by (apply N.ltb_lt in Hch; apply N.ltb_ge in Hch'; lia).
    subst ch. split.
    + exists (ascii_of_N 127). split; [left; reflexivity | reflexivity].
    + left. reflexivity.
Qed.

Lemma PyLong_FromString_shortcut u :
  PyLong_FromString (max_str_digits py) (TransformDecimalAndSpaceToASCII py u) =
  PyLong_FromString (max_str_digits py) (T u).
Proof.
  unfold TransformDecimalAndSpaceToASCII.
  destruct (PyUnicode_IS_ASCII u) eqn:Hascii; [|reflexivity].
  destruct (forallb (fun ch => (ch <? 127)%N) u) eqn:Hlow.
  - rewrite (loop_of_low u Hlow). reflexivity.
  - destruct (ascii_with_delete u Hascii Hlow) as [(c & Hin & Hc) Hq].
    destruct (PyLong_FromString _ (ascii_text u)) as [n|] eqn:H1.
    + apply CFacts.PyLong_FromString_sound in H1.
      destruct (CFacts.literal_chars _ H1 c Hin). congruence.
    + destruct (PyLong_FromString _ (T u)) as [n|] eqn:H2; [|reflexivity].
      apply CFacts.PyLong_FromString_sound in H2.
      destruct (CFacts.literal_chars _ H2 _ Hq). congruence.
Qed.

(** [int()] through the loop. *)
Lemma int_of_str_loop u :
  int_of_str py u =
  match PyLong_FromString (max_str_digits py) (T u) with
  | Some n => Return n
  | None => Raise ValueError
  end.
Proof. unfold int_of_str. rewrite PyLong_FromString_shortcut. reflexivity. Qed.

(** ** From the C string back to the [str] *)

Lemma trailing_of_T t :
  CLiteral.trailing t -> forall u, T u = t -> trailing u.
Proof.
  induction 1 as [|c t Hc Ht IH]; intros u Hu.
  - apply T_nil_inv in Hu. subst. constructor.
  - destruct (T_space_inv _ _ _ Hu Hc) as (ch & u0 & -> & Hch & ->).
    constructor; auto.
Qed.

Lemma digit_tail_of_T t :
  CLiteral.digit_tail t -> forall u, T u = t -> digit_tail py u.
Proof.
  induction 1 as [t Ht | c t Hc Ht IH | c t Hc Ht IH]; intros u Hu.
  - apply tail_end. eapply trailing_of_T; eauto.
  - destruct (T_digit_inv _ _ _ Hu Hc) as (ch & u0 & -> & Hch & ->).
    apply tail_digit; auto.
  - destruct (T_plain_inv _ _ _ Hu) as (u0 & -> & Hu0);
      [discriminate | discriminate | reflexivity |].
    symmetry in Hu0.
    destruct (T_digit_inv _ _ _ Hu0 Hc) as (ch & u1 & -> & Hch & ->).
    apply (tail_underscore py ch u1); auto.
Qed.

Lemma unsigned_of_T t :
  CLiteral.unsigned t -> forall u, T u = t -> unsigned py u.
Proof.
  intros [c t' Hc Ht] u Hu.
  destruct (T_digit_inv _ _ _ Hu Hc) as (ch & u0 & -> & Hch & ->).
  constructor; [assumption|]. eapply digit_tail_of_T; eauto.
Qed.

Lemma signed_of_T t :
  CLiteral.signed t -> forall u, T u = t -> signed py u.
Proof.
  intros [t' Hu' | t' Hu' | t' Hu'] u Hu.
  - destruct (T_plain_inv _ _ _ Hu) as (u0 & -> & ->);
      [discriminate | discriminate | reflexivity |].
    apply (signed_plus py). eapply unsigned_of_T; eauto.
  - destruct (T_plain_inv _ _ _ Hu) as (u0 & -> & ->);
      [discriminate | discriminate | reflexivity |].
    apply (signed_minus py). eapply unsigned_of_T; eauto.
  - apply signed_none. eapply unsigned_of_T; eauto.
Qed.

Lemma literal_of_T t :
  CLiteral.literal t -> forall u, T u = t -> literal py u.
Proof.
  induction 1 as [c t Hc Ht IH | t Ht]; intros u Hu.
  - destruct (T_space_inv _ _ _ Hu Hc) as (ch & u0 & -> & Hch & ->).
    apply literal_space; auto.
  - apply literal_signed. eapply signed_of_T; eauto.
Qed.

(** [int()] returns only on a valid decimal integer string. *)
Lemma int_of_str_sound u n :
  int_of_str py u = Return n -> int_literal py u.
Proof.
  rewrite int_of_str_loop. unfold int_literal.
  destruct (PyLong_FromString (max_str_digits py) (T u)) as [v|] eqn:H;
    [|discriminate].
  intros _. eapply literal_of_T; [|reflexivity].
  eapply CFacts.PyLong_FromString_sound; eauto.
Qed.

(** ** From the [str] to the C string *)

Lemma T_keep ch u :
  (ch <? 127)%N = true -> T (ch :: u) = String (ascii_of_N ch) (T u).
Proof. intros H. simpl. rewrite H. reflexivity. Qed.

Lemma T_space ch :
  is_space ch = true ->
  exists c, Py_ISSPACE c = true /\ forall u, T (ch :: u) = String c (T u).
Proof.
  intros Hch. destruct (ch <? 127)%N eqn:Hlow.
  - exists (ascii_of_N ch). rewrite (low_space ch Hlow).
    split; [assumption|]. intros u. apply T_keep. assumption.
  - exists " "%char. split; [reflexivity|]. intros u. simpl.
    unfold is_space in Hch. rewrite Hlow in *. rewrite Hch. reflexivity.
Qed.

Lemma T_decimal ch :
  is_decimal py ch = true ->
  exists c, is_digit c = true /\ forall u, T (ch :: u) = String c (T u).
Proof.
  intros Hch. destruct (ch <? 127)%N eqn:Hlow.
  - exists (ascii_of_N ch). rewrite (low_decimal ch Hlow).
    split; [assumption|]. intros u. apply T_keep. assumption.
  - unfold is_decimal in Hch. rewrite Hlow in Hch.
    apply andb_true_iff in Hch. destruct Hch as [Hsp Hd].
    apply negb_true_iff in Hsp.
    destruct (Py_UNICODE_TODECIMAL py ch) as [d|] eqn:Htab; [|discriminate].
    exists (decimal_char d). split; [apply decimal_char_digit|].
    intros u. simpl. rewrite Hlow, Hsp, Htab. reflexivity.
Qed.

Lemma trailing_to_T u :
  trailing u ->
  CLiteral.trailing (T u)
  /\ CLiteral.count_digits (T u) = count_digits py u.
Proof.
  induction 1 as [|ch u Hch Hu [IH1 IH2]].
  - split; [constructor | reflexivity].
  - destruct (T_space ch Hch) as (c & Hc & ->).
    split; [constructor; assumption|].
    simpl. rewrite IH2, (space_not_decimal ch Hch).
    destruct (CFacts.space_char _ Hc) as [-> _]. reflexivity.
Qed.

Lemma digit_tail_to_T u :
  digit_tail py u ->
  CLiteral.digit_tail (T u)
  /\ CLiteral.count_digits (T u) = count_digits py u.
Proof.
  induction 1 as [u Hu | ch u Hch Hu [IH1 IH2] | ch u Hch Hu [IH1 IH2]].
  - destruct (trailing_to_T u Hu).
    split; [apply CLiteral.tail_end|]; assumption.
  - destruct (T_decimal ch Hch) as (c & Hc & ->).
    split; [apply CLiteral.tail_digit; assumption|].
    simpl. rewrite IH2, Hc, Hch. reflexivity.
  - destruct (T_decimal ch Hch) as (c & Hc & Hcons).
    change (T (low_line :: ch :: u)) with (String underscore (T (ch :: u))).
    rewrite Hcons.
    split; [apply CLiteral.tail_underscore; assumption|].
    cbn [CLiteral.count_digits count_digits].
    rewrite IH2, Hc, Hch. reflexivity.
Qed.

Lemma unsigned_to_T u :
  unsigned py u ->
  CLiteral.unsigned (T u)
  /\ CLiteral.count_digits (T u) = count_digits py u.
Proof.
  intros [ch u' Hch Hu].
  destruct (T_decimal ch Hch) as (c & Hc & ->).
  destruct (digit_tail_to_T u' Hu) as [H1 H2].
  split; [constructor; assumption|].
  simpl. rewrite H2, Hc, Hch. reflexivity.
Qed.

Lemma signed_to_T u :
  signed py u ->
  CLiteral.signed (T u)
  /\ CLiteral.count_digits (T u) = count_digits py u.
Proof.
  intros [u' Hu | u' Hu | u' Hu];
    destruct (unsigned_to_T u' Hu) as [H1 H2].
  - change (T (plus_sign :: u')) with (String "+"%char (T u')).
    split; [apply CLiteral.signed_plus; assumption|].
    cbn [CLiteral.count_digits count_digits]. rewrite H2. reflexivity.
  - change (T (minus_sign :: u')) with (String "-"%char (T u')).
    split; [apply CLiteral.signed_minus; assumption|].
    cbn [CLiteral.count_digits count_digits]. rewrite H2. reflexivity.
  - split; [apply CLiteral.signed_none; assumption | assumption].
Qed.

Lemma literal_to_T u :
  literal py u ->
  CLiteral.literal (T u)
  /\ CLiteral.count_digits (T u) = count_digits py u.
Proof.
  induction 1 as [ch u Hch Hu [IH1 IH2] | u Hu].
  - destruct (T_space ch Hch) as (c & Hc & ->).
    split; [apply CLiteral.literal_space; assumption|].
    simpl. rewrite IH2, (space_not_decimal ch Hch).
    destruct (CFacts.space_char _ Hc) as [-> _]. reflexivity.
  - destruct (signed_to_T u Hu).
    split; [apply CLiteral.literal_signed|]; assumption.
Qed.

Lemma int_of_str_complete u :
  int_literal py u ->
  exceeds_limit (max_str_digits py) (count_digits py u) = false ->
  exists n, int_of_str py u = Return n.
Proof.
  intros Hu Hlimit. destruct (literal_to_T u Hu) as [Ht Hcount].
  rewrite <- Hcount in Hlimit.
  destruct (CFacts.PyLong_FromString_complete _ _ Ht Hlimit) as [n Hn].
  exists n. rewrite int_of_str_loop, Hn. reflexivity.
Qed.

(** [int(s)] returns exactly on the valid decimal integer strings whose
    digits stay within the interpreter's limit. *)
Lemma int_of_str_accepts u :
  (exists n, int_of_str py u = Return n) <->
  int_literal py u
  /\ exceeds_limit (max_str_digits py) (count_digits py u) = false.
Proof.
  split.
  - intros [n Hn].
    assert (Hlit : int_literal py u) by (eapply int_of_str_sound; eauto).
    split; [assumption|].
    destruct (literal_to_T u Hlit) as [_ Hcount]. rewrite <- Hcount.
    rewrite int_of_str_loop in Hn.
    destruct (PyLong_FromString (max_str_digits py) (T u)) eqn:H;
      [|discriminate].
    eapply CFacts.PyLong_FromString_limit; eauto.
  - intros [Hlit Hlimit]. apply int_of_str_complete; assumption.
Qed.

(** Otherwise it raises [ValueError]. *)
Lemma int_of_str_rejects u :
  ~ int_literal py u -> int_of_str py u = Raise ValueError.
Proof.
  intros Hu. rewrite int_of_str_loop.
  destruct (PyLong_FromString (max_str_digits py) (T u)) as [n|] eqn:H;
    [|reflexivity].
  exfalso. apply Hu. apply (int_of_str_sound u n).
  rewrite int_of_str_loop, H. reflexivity.
Qed.

Lemma int_raises_only_ValueError x e :
  int py x = Raise e -> e = ValueError.
Proof.
  destruct x as [n|s]; simpl; [discriminate|].
  unfold int_of_str. destruct (PyLong_FromString _ _); congruence.
Qed.

End WithInterpreter.

End IntFacts.

(* ===================================================================== *)
(** * [int()] on padded strings and on rows of digits                     *)
(* ===================================================================== *)

Module TextFacts.

Import Py IntLiteral PortText.

Lemma text_cons c s : text (String c s) = ord c :: text s.
Proof. reflexivity. Qed.

Lemma text_app a b : text (a ++ b)%string = (text a ++ text b)%list.
Proof.
  induction a as [|c a IH]; [reflexivity|].
  rewrite RowFacts.append_cons, !text_cons, IH. reflexivity.
Qed.

Lemma blank_trailing w : blank w = true -> trailing w.
Proof.
  induction w as [|ch w IH]; simpl; [constructor|].
  intros H. apply andb_true_iff in H. destruct H. constructor; auto.
Qed.

Section WithInterpreter.

Variable py : Interpreter.

Local Abbreviation T := (transform_loop py).

(** ** White space around a string *)

(** The transform of white space in front of a string is C white space in
    front of the transform of the string. *)
Lemma T_blank_app w :
  trailing w ->
  exists w', CLiteral.trailing w'
             /\ forall u, T (w ++ u) = (w' ++ T u)%string.
Proof.
  induction 1 as [|ch w Hch Hw (w' & Hw' & IH)].
  - exists EmptyString. split; [constructor | reflexivity].
  - destruct (IntFacts.T_space py ch Hch) as (c & Hc & Hcons).
    exists (String c w'). split; [constructor; assumption|].
    intros u. rewrite <- app_comm_cons, Hcons, IH. reflexivity.
Qed.

(** After a string, the transform either has stopped inside the string or
    goes on into what follows. *)
Lemma T_app_r u w :
  T (u ++ w) = T u \/ T (u ++ w) = (T u ++ T w)%string.
Proof.
  induction u as [|ch u IH]; [right; reflexivity|].
  rewrite <- app_comm_cons. simpl.
  destruct (ch <? 127)%N.
  - destruct IH as [-> | ->]; [left | right]; reflexivity.
  - destruct (Py_UNICODE_ISSPACE ch).
    + destruct IH as [-> | ->]; [left | right]; reflexivity.
    + destruct (Py_UNICODE_TODECIMAL py ch).
      * destruct IH as [-> | ->]; [left | right]; reflexivity.
      * left. reflexivity.
Qed.

(** [int()] does not see the white space around a string: the padded
    string converts, or fails to convert, exactly as the string does. *)
Lemma int_of_str_padding w1 u w2 :
  blank w1 = true -> blank w2 = true ->
  int_of_str py (w1 ++ u ++ w2) = int_of_str py u.
Proof.
  intros H1 H2. apply blank_trailing in H1, H2.
  destruct (T_blank_app w1 H1) as (w1' & Hw1' & HT1).
  destruct (IntFacts.trailing_to_T py w2 H2) as [Hw2' _].
  rewrite !IntFacts.int_of_str_loop.
  rewrite HT1, (RowFacts.PyLong_FromString_lead _ w1' _ Hw1').
  destruct (T_app_r u w2) as [-> | ->]; [reflexivity|].
  rewrite (RowFacts.PyLong_FromString_trail _ (T u) (T w2) Hw2').
  reflexivity.
Qed.

(** A string of white space only is not converted. *)
Lemma int_of_str_blank w :
  blank w = true -> int_of_str py w = Raise ValueError.
Proof.
  intros Hw.
  pose proof (int_of_str_padding w [] [] Hw eq_refl) as H.
  rewrite app_nil_r in H. rewrite H. reflexivity.
Qed.

(** ** Rows of the digits 0 to 9 *)

Lemma T_text_row a u :
  all_digits a = true -> T (text a ++ u) = (a ++ T u)%string.
Proof.
  induction a as [|c a IH]; [reflexivity|]. simpl all_digits.
  intros H. apply andb_true_iff in H. destruct H as [Hc Ha].
  destruct (CFacts.digit_char _ Hc) as (_ & _ & Hlow & _).
  rewrite text_cons, <- app_comm_cons, (IntFacts.T_keep py _ _ Hlow).
  unfold ord. rewrite ascii_N_embedding, (IH Ha). reflexivity.
Qed.

Lemma T_text_digits a : all_digits a = true -> T (text a) = a.
Proof.
  intros Ha. pose proof (T_text_row a [] Ha) as H.
  rewrite app_nil_r, RowFacts.append_nil_r in H. exact H.
Qed.

(** [int()] on a row of digits, bare or signed. *)
Lemma int_of_str_row s :
  s <> EmptyString ->
  all_digits s = true ->
  (String.length s <= MAX_STR_DIGITS_THRESHOLD)%nat ->
  int_of_str py (text s) = Return (positional s)
  /\ int_of_str py (text (String "+" s)) = Return (positional s)
  /\ int_of_str py (text (String "-" s)) = Return (- positional s).
Proof.
  intros Hne Hd Hlen.
  destruct (RowFacts.PyLong_FromString_row (max_str_digits py) s Hne Hd Hlen)
    as (H0 & Hplus & Hminus).
  rewrite !IntFacts.int_of_str_loop, !text_cons.
  rewrite !(IntFacts.T_keep py) by reflexivity.
  rewrite (T_text_digits s Hd).
  change (ascii_of_N (ord "+")) with "+"%char.
  change (ascii_of_N (ord "-")) with "-"%char.
  rewrite H0, Hplus, Hminus. auto.
Qed.

(** One underscore between two rows of digits. *)
Lemma int_of_str_underscore a b :
  a <> EmptyString -> b <> EmptyString ->
  all_digits a = true -> all_digits b = true ->
  int_of_str py (text (a ++ String "_" b)) = int_of_str py (text (a ++ b)).
Proof.
  intros Ha0 Hb0 Ha Hb. rewrite !IntFacts.int_of_str_loop.
  rewrite !text_app, text_cons, !(T_text_row a _ Ha).
  rewrite (IntFacts.T_keep py) by reflexivity.
  rewrite (T_text_digits b Hb).
  change (ascii_of_N (ord "_")) with underscore.
  rewrite (RowFacts.PyLong_FromString_underscore _ a b Ha0 Hb0 Ha Hb).
  reflexivity.
Qed.

End WithInterpreter.

(** ** Samples *)

Example int_8080 py : int_of_str py (text "8080") = Return 8080.
Proof. reflexivity. Qed.

Example int_padded py : int_of_str py (text " +8_080 ") = Return 8080.
Proof. reflexivity. Qed.

Example int_negative py : int_of_str py (text "-007") = Return (-7).
Proof. reflexivity. Qed.

Example int_not_a_number py : int_of_str py (text "80a") = Raise ValueError.
Proof. reflexivity. Qed.

Example int_empty py : int_of_str py [] = Raise ValueError.
Proof. reflexivity. Qed.

Example int_double_underscore py :
  int_of_str py (text "8__0") = Raise ValueError.
Proof. reflexivity. Qed.

(** U+0668 U+0660 U+0668 U+0660, the Arabic-Indic spelling of 8080. *)
Example int_arabic_indic :
  int_of_str sample_interpreter [1640; 1632; 1640; 1632]%N = Return 8080.
Proof. reflexivity. Qed.

(** Fullwidth 8080 after an ideographic space (U+3000). *)
Example int_fullwidth :
  int_of_str sample_interpreter [12288; 65304; 65296; 65304; 65296]%N =
  Return 8080.
Proof. reflexivity. Qed.

Example literal_8080 py : int_literal py (text "8080").
Proof.
  apply literal_signed, signed_none, unsigned_intro; [reflexivity|].
  repeat (apply tail_digit; [reflexivity|]).
  apply tail_end. constructor.
Qed.

Example literal_arabic_indic :
  int_literal sample_interpreter [1640; 1632; 1640; 1632]%N.
Proof.
  apply (IntFacts.int_of_str_accepts sample_interpreter).
  exists 8080. reflexivity.
Qed.

Example not_literal_double_underscore py : ~ int_literal py (text "8__0").
Proof.
  intros H.
  destruct (IntFacts.int_of_str_complete py _ H eq_refl) as [n Hn].
  vm_compute in Hn. discriminate.
Qed.

Example not_literal_empty py : ~ int_literal py [].
Proof.
  intros H.
  destruct (IntFacts.int_of_str_complete py _ H eq_refl) as [n Hn].
  vm_compute in Hn. discriminate.
Qed.

Example not_literal_float py : ~ int_literal py (text "80.5").
Proof.
  intros H.
  destruct (IntFacts.int_of_str_complete py _ H eq_refl) as [n Hn].
  vm_compute in Hn. discriminate.
Qed.

End TextFacts.

(* ===================================================================== *)
(** * Properties of the application                                       *)
(* ===================================================================== *)

Module AppFacts.

Import flask app.

Lemma strip_prefix_app pre rest : strip_prefix pre (pre ++ rest) = Some rest.
Proof.
  induction pre as [|a pre IH]; [reflexivity|].
  rewrite RowFacts.append_cons. cbn [strip_prefix].
  rewrite Ascii.eqb_refl. exact IH.
Qed.

Lemma strip_prefix_inv pre s rest :
  strip_prefix pre s = Some rest -> s = (pre ++ rest)%string.
Proof.
  revert s. induction pre as [|a pre IH]; intros s H.
  - simpl in H. injection H as ->. reflexivity.
  - destruct s as [|b s]; [discriminate|]. simpl in H.
    destruct (Ascii.eqb a b) eqn:Hab; [|discriminate].
    apply Ascii.eqb_eq in Hab. subst b.
    rewrite RowFacts.append_cons, <- (IH s H). reflexivity.
Qed.

(** The three rules on a path. *)
Lemma match_rule_static p :
  match_rule "/static/<path:filename>" p =
  match strip_prefix "/static/" p with
  | Some rest =>
      if path_converter_accepts rest then Some [("filename", rest)] else None
  | None => None
  end.
Proof. reflexivity. Qed.

Lemma match_rule_health p :
  match_rule "/health" p = if String.eqb "/health" p then Some [] else None.
Proof. reflexivity. Qed.

Lemma match_rule_root p :
  match_rule "/" p = if String.eqb "/" p then Some [] else None.
Proof. reflexivity. Qed.

(** A path the static rule matches is [/static/] followed by a file name
    that is not empty and does not begin with a slash; the file name is
    the view's only argument. *)
Lemma match_rule_static_inv p args :
  match_rule "/static/<path:filename>" p = Some args ->
  exists f, args = [("filename", f)]
            /\ p = ("/static/" ++ f)%string
            /\ path_converter_accepts f = true.
Proof.
  rewrite match_rule_static.
  destruct (strip_prefix "/static/" p) as [rest|] eqn:Hp; [|discriminate].
  destruct (path_converter_accepts rest) eqn:Hrest; [|discriminate].
  intros [= <-]. exists rest. split; [reflexivity|].
  split; [apply strip_prefix_inv; assumption | assumption].
Qed.

(** The rule table does not depend on the environment. *)
Lemma url_map_import env file :
  url_map (import_module env file) =
  [ {| rule := "/static/<path:filename>"; methods := [GET; OPTIONS; HEAD];
       endpoint := "static"; provide_automatic_options := true |};
    {| rule := "/health"; methods := [GET; OPTIONS; HEAD];
       endpoint := "health_check"; provide_automatic_options := true |};
    {| rule := "/"; methods := [GET; OPTIONS; HEAD];
       endpoint := "root"; provide_automatic_options := true |} ].
Proof. reflexivity. Qed.

(** Every view function of the table hands the state back. *)
Lemma view_keeps_state e view args req st st' resp :
  view_functions e = Some view ->
  call_view view args req st = Some (st', resp) ->
  st' = st.
Proof.
  unfold view_functions.
  destruct (String.eqb e "static").
  { intros [= <-] H. destruct args as [|[k x] [|]]; unfold call_view in H;
      [discriminate H | | discriminate H].
    destruct (String.eqb "filename" k); [|discriminate H].
    unfold static in H. injection H as <- _. reflexivity. }
  destruct (String.eqb e "health_check").
  { intros [= <-] H. destruct args; unfold call_view in H; [|discriminate H].
    unfold health_check in H. injection H as <- _. reflexivity. }
  destruct (String.eqb e "root").
  { intros [= <-] H. destruct args; unfold call_view in H; [|discriminate H].
    unfold root in H. injection H as <- _. reflexivity. }
  discriminate.
Qed.

Lemma handle_state req st : fst (handle req st) = st.
Proof.
  unfold handle, wsgi_app.
  destruct (match_request _ _ _) as [r args| |]; try reflexivity.
  destruct (provide_automatic_options r && _); [reflexivity|].
  destruct (view_functions (endpoint r)) as [view|] eqn:Hview; [|reflexivity].
  destruct (call_view view args req st) as [[st' resp]|] eqn:Hcall;
    [|reflexivity].
  simpl. eapply view_keeps_state; eauto.
Qed.

Lemma serve_state reqs : forall st, fst (serve st reqs) = st.
Proof.
  induction reqs as [|req reqs IH]; intros st; [reflexivity|].
  simpl. pose proof (handle_state req st) as H1.
  destruct (handle req st) as [st1 o]. simpl in H1. subst st1.
  specialize (IH st). destruct (serve st reqs) as [st2 os]. exact IH.
Qed.

Lemma state_after_start env file history :
  state_after env file history = import_module env file.
Proof. unfold state_after. apply serve_state. Qed.

(** The outcome of a request is a function of its method, its path, the
    rule table and what the static folder answers. *)
Lemma handle_outcome req1 st1 req2 st2 :
  method req1 = method req2 -> path req1 = path req2 ->
  url_map st1 = url_map st2 ->
  (forall f, static_folder st1 req1 f = static_folder st2 req2 f) ->
  snd (handle req1 st1) = snd (handle req2 st2).
Proof.
  intros Hm Hp Hu Hfolder. unfold handle, wsgi_app. rewrite Hm, Hp, Hu.
  destruct (match_request _ _ _) as [r args| |]; try reflexivity.
  destruct (provide_automatic_options r && _); [reflexivity|].
  unfold view_functions.
  destruct (String.eqb (endpoint r) "static").
  { destruct args as [|[k x] [|]]; unfold call_view; try reflexivity.
    destruct (String.eqb "filename" k); [|reflexivity].
    unfold static, send_static_file. simpl. rewrite Hfolder. reflexivity. }
  destruct (String.eqb (endpoint r) "health_check").
  { destruct args; reflexivity. }
  destruct (String.eqb (endpoint r) "root").
  { destruct args; reflexivity. }
  reflexivity.
Qed.

(** The routing of a request on the table of the application, split by
    which of the three rules have the path [p]. *)
Ltac on_import_table p :=
  unfold handle, wsgi_app, match_request;
  rewrite ?url_map_import; cbn [path method flat_map rule List.app];
  rewrite match_rule_static, match_rule_health, match_rule_root;
  destruct (strip_prefix "/static/" p) as [?f|] eqn:?Hstatic;
    [cbv beta iota;
     match goal with
     | |- context [path_converter_accepts ?x] =>
         destruct (path_converter_accepts x) eqn:?Hfile
     end|];
  destruct (String.eqb "/health" p) eqn:?Hhealth;
  destruct (String.eqb "/" p) eqn:?Hroot.

(** Samples: a file of the static folder is served, a missing one is
    answered with 404, and a path under [/static/] takes no other method. *)
Example static_serves_file env file resp :
  snd (handle (mkRequest GET "/static/css/site.css" "" [] "")
         {| environ := env;
            url_map := url_map (import_module env file);
            static_folder := fun _ f =>
              if String.eqb f "css/site.css" then Some resp else None |}) =
  FromView "static" resp.
Proof. reflexivity. Qed.

Example static_missing_file env file :
  snd (handle (mkRequest GET "/static/x.txt" "" [] "")
         (import_module env file)) =
  FromView "static" not_found_response.
Proof. reflexivity. Qed.

Example static_post_not_allowed env file :
  snd (handle (mkRequest POST "/static/x.txt" "" [] "")
         (import_module env file)) =
  MethodNotAllowed (method_not_allowed_response [GET; OPTIONS; HEAD]).
Proof. reflexivity. Qed.

(** [os.environ] after [load_dotenv()]. *)
Lemma environ_import env file :
  environ (import_module env file) = dotenv.load_dotenv file env.
Proof. reflexivity. Qed.

Lemma load_dotenv_set (env file : gmap string (list N)) k s :
  env !! k = Some s -> dotenv.load_dotenv file env !! k = Some s.
Proof. intros H. unfold dotenv.load_dotenv. apply lookup_union_Some_l. exact H. Qed.

Lemma load_dotenv_from_file (env file : gmap string (list N)) k :
  env !! k = None -> dotenv.load_dotenv file env !! k = file !! k.
Proof. intros H. unfold dotenv.load_dotenv. apply lookup_union_r. exact H. Qed.

Lemma load_dotenv_unset (env file : gmap string (list N)) k :
  dotenv.load_dotenv file env !! k = None <->
  env !! k = None /\ file !! k = None.
Proof. unfold dotenv.load_dotenv. apply lookup_union_None. Qed.

(** [main] in terms of the value of [PORT]. *)
Lemma main_unset py st :
  environ st !! "PORT" = None ->
  main py st = Py.Return {| host := "0.0.0.0"; port := 9001; debug := true |}.
Proof. intros H. unfold main, Py.environ_get. rewrite H. reflexivity. Qed.

Lemma main_set py st s :
  environ st !! "PORT" = Some s ->
  main py st =
  Py.bind (Py.int_of_str py s)
    (fun p => Py.Return {| host := "0.0.0.0"; port := p; debug := true |}).
Proof. intros H. unfold main, Py.environ_get. rewrite H. reflexivity. Qed.

(** Process start when the environment of the process sets [PORT]. *)
Lemma start_port_set py (env file : gmap string (list N)) s :
  env !! "PORT" = Some s ->
  start py env file =
  Py.bind (Py.int_of_str py s)
    (fun p => Py.Return {| host := "0.0.0.0"; port := p; debug := true |}).
Proof.
  intros H. unfold start. apply main_set.
  rewrite environ_import. apply load_dotenv_set. exact H.
Qed.

Lemma start_port_insert py (env file : gmap string (list N)) s :
  start py (<["PORT" := s]> env) file =
  Py.bind (Py.int_of_str py s)
    (fun p => Py.Return {| host := "0.0.0.0"; port := p; debug := true |}).
Proof. apply start_port_set. apply lookup_insert_eq. Qed.

(** Process start when only the [.env] file sets [PORT]. *)
Lemma start_port_file py (env file : gmap string (list N)) s :
  env !! "PORT" = None -> file !! "PORT" = Some s ->
  start py env file =
  Py.bind (Py.int_of_str py s)
    (fun p => Py.Return {| host := "0.0.0.0"; port := p; debug := true |}).
Proof.
  intros He Hf. unfold start. apply main_set.
  rewrite environ_import, load_dotenv_from_file; assumption.
Qed.

End AppFacts.

(* ===================================================================== *)
(** * Properties of the legacy module's import                            *)
(* ===================================================================== *)

Module LegacyFacts.

Import Py PyModule.

(** Importing the legacy module binds no name, whatever else can be
    imported. *)
Lemma service_namespace table :
  import_source table pre_diagnosis_summary_service.source = Return ∅.
Proof. reflexivity. Qed.

Lemma empty_defines_no_name name : ~ defines_name ∅ name.
Proof. unfold defines_name. rewrite lookup_empty. apply is_Some_None. Qed.

Lemma empty_defines_no_method m : ~ defines_method ∅ m.
Proof.
  intros (cls & ms & f & Hcls & _). rewrite lookup_empty in Hcls. discriminate.
Qed.

(** [from <legacy module> import name] raises [ImportError] for every
    name. *)
Lemma from_service_import_fails table table0 ns name :
  table !! pre_diagnosis_summary_service.module_name =
    Some (import_source table0 pre_diagnosis_summary_service.source) ->
  exec_stmt table ns
    (FromImport pre_diagnosis_summary_service.module_name name) =
  Raise ImportError.
Proof.
  intros H. simpl. rewrite H, service_namespace, lookup_empty. reflexivity.
Qed.

Lemma import_found table ns m exported :
  table !! m = Some (Return exported) ->
  exec_stmt table ns (Import m) = Return (<[m := OModule m]> ns).
Proof. intros H. simpl. rewrite H. reflexivity. Qed.

Lemma from_import_found table ns m name exported o :
  table !! m = Some (Return exported) ->
  exported !! name = Some o ->
  exec_stmt table ns (FromImport m name) = Return (<[name := o]> ns).
Proof. intros H Ho. simpl. rewrite H, Ho. reflexivity. Qed.

Lemma get_attr_found table ns x m exported attr o :
  ns !! x = Some (OModule m) ->
  table !! m = Some (Return exported) ->
  exported !! attr = Some o ->
  get_attr table ns x attr = Return o.
Proof. intros Hx Hm Ho. unfold get_attr. rewrite Hx, Hm, Ho. reflexivity. Qed.

End LegacyFacts.

(* ===================================================================== *)
(** * The HTTP surface                                                    *)
(* ===================================================================== *)

Import flask app.

(** C1. Every GET request to [/health], whatever else it carries and
    whatever the process has served before, is dispatched to
    [health_check] and answered with status 200 and the JSON object with
    status "healthy", service "voice_transcription" and version "1.0.0";
    the process state is left as it was. *)
Theorem health_check_get :
  forall (env file : gmap string (list N)) (history : list Request)
         (req : Request),
    method req = GET ->
    path req = "/health" ->
    handle req (state_after env file history) =
    (state_after env file history,
     FromView "health_check"
       {| status_code := 200;
          mimetype := "application/json";
          data := Some (JObj [ ("status", JStr "healthy");
                               ("service", JStr "voice_transcription");
                               ("version", JStr "1.0.0") ]);
          allow := [] |}).
Proof.
  intros env file history req Hm Hp.
  rewrite AppFacts.state_after_start.
  unfold handle, wsgi_app. rewrite Hm, Hp. reflexivity.
Qed.

Lemma health_check_get_witness :
  handle (mkRequest GET "/health" "verbose=1" [("Accept", "*/*")] "")
    (state_after {["PORT" := Py.text "8080"]} ∅
       [mkRequest POST "/" "" [] "x"]) =
  (state_after {["PORT" := Py.text "8080"]} ∅ [mkRequest POST "/" "" [] "x"],
   FromView "health_check"
     {| status_code := 200;
        mimetype := "application/json";
        data := Some (JObj [ ("status", JStr "healthy");
                             ("service", JStr "voice_transcription");
                             ("version", JStr "1.0.0") ]);
        allow := [] |}).
Proof.
  apply (health_check_get {["PORT" := Py.text "8080"]} ∅
           [mkRequest POST "/" "" [] "x"]
           (mkRequest GET "/health" "verbose=1" [("Accept", "*/*")] ""));
    reflexivity.
Defined.

(** C2. Every GET request to [/] is dispatched to [root] and answered with
    status 200 and the JSON object with message "Voice Transcription
    Service", status "running" and endpoints the one-element list
    ["/health"]. *)
Theorem root_get :
  forall (env file : gmap string (list N)) (history : list Request)
         (req : Request),
    method req = GET ->
    path req = "/" ->
    handle req (state_after env file history) =
    (state_after env file history,
     FromView "root"
       {| status_code := 200;
          mimetype := "application/json";
          data := Some (JObj [ ("message", JStr "Voice Transcription Service");
                               ("status", JStr "running");
                               ("endpoints", JArr [ JStr "/health" ]) ]);
          allow := [] |}).
Proof.
  intros env file history req Hm Hp.
  rewrite AppFacts.state_after_start.
  unfold handle, wsgi_app. rewrite Hm, Hp. reflexivity.
Qed.

Lemma root_get_witness :
  handle (mkRequest GET "/" "" [] "")
    (state_after ∅ ∅ [mkRequest GET "/health" "" [] ""]) =
  (state_after ∅ ∅ [mkRequest GET "/health" "" [] ""],
   FromView "root"
     {| status_code := 200;
        mimetype := "application/json";
        data := Some (JObj [ ("message", JStr "Voice Transcription Service");
                             ("status", JStr "running");
                             ("endpoints", JArr [ JStr "/health" ]) ]);
        allow := [] |}).
Proof.
  apply (root_get ∅ ∅ [mkRequest GET "/health" "" [] ""]
           (mkRequest GET "/" "" [] ""));
    reflexivity.
Defined.

(** C4. The responses are deterministic and stateless: take two runs of the
    process (any environments, any [.env] files) and any two sequences of
    requests served before; two requests with the same method and path get
    the same outcome, body included. With an empty history on one side this
    says that the payloads are those of process start. *)
Theorem responses_deterministic :
  forall (env1 file1 env2 file2 : gmap string (list N))
         (history1 history2 : list Request) (req1 req2 : Request),
    method req1 = method req2 ->
    path req1 = path req2 ->
    snd (handle req1 (state_after env1 file1 history1)) =
    snd (handle req2 (state_after env2 file2 history2)).
Proof.
  intros env1 file1 env2 file2 history1 history2 req1 req2 Hm Hp.
  rewrite !AppFacts.state_after_start.
  apply AppFacts.handle_outcome; try assumption; reflexivity.
Qed.

Lemma responses_deterministic_witness :
  snd (handle (mkRequest GET "/health" "a=1" [] "")
         (state_after {["PORT" := Py.text "8080"]} ∅
            [mkRequest GET "/" "" [] ""; mkRequest PUT "/health" "" [] "{}"])) =
  snd (handle (mkRequest GET "/health" "" [("X", "y")] "")
         (state_after ∅ {["PORT" := Py.text "1"]} [])).
Proof.
  apply (responses_deterministic {["PORT" := Py.text "8080"]} ∅
           ∅ {["PORT" := Py.text "1"]}
           [mkRequest GET "/" "" [] ""; mkRequest PUT "/health" "" [] "{}"] []
           (mkRequest GET "/health" "a=1" [] "")
           (mkRequest GET "/health" "" [("X", "y")] ""));
    reflexivity.
Defined.

(** C6, as stated, fails: the route table has an entry for a path other
    than [/health] and [/]. [Flask(__name__)] installs the rule
    [/static/<path:filename>], which has the path [/static/x.txt]. *)
Lemma two_routes_only_counterexample :
  ~ (forall (env file : gmap string (list N)) (history : list Request)
            (p : string),
       (exists r, In r (url_map (state_after env file history))
                  /\ rule_matches p r = true) ->
       p = "/health" \/ p = "/").
Proof.
  intros H.
  destruct (H ∅ ∅ [] "/static/x.txt") as [Hp | Hp]; try discriminate Hp.
  eexists. split; [left; reflexivity | reflexivity].
Qed.

(** C6, amended. The application code registers exactly two routes,
    [/health] for [health_check] and [/] for [root]; at every moment of
    the process's life the route table holds them after the rule
    [/static/<path:filename>] that the framework installs. A path has an
    entry in the table exactly when it is [/health], [/], or [/static/]
    followed by a file name that is not empty and does not begin with a
    slash. The two handlers of this code are reached on their own path
    only, and answer every GET request there with status 200 and their
    fixed JSON object; a request for a path without an entry reaches no
    view function. *)
Theorem two_routes_only :
  forall (env file : gmap string (list N)) (history : list Request),
    map rule (url_map (state_after env file history)) =
      ["/static/<path:filename>"; "/health"; "/"]
    /\ map (fun r => (rule r, endpoint r))
         (decorated_rules (url_map (state_after env file history))) =
       [("/health", "health_check"); ("/", "root")]
    /\ (forall p : string,
          (exists r, In r (url_map (state_after env file history))
                     /\ rule_matches p r = true)
          <-> (p = "/health" \/ p = "/"
               \/ exists f, p = ("/static/" ++ f)%string
                            /\ path_converter_accepts f = true))
    /\ (forall req : Request,
          (invoked (snd (handle req (state_after env file history))) =
             Some "health_check" -> path req = "/health")
          /\ (invoked (snd (handle req (state_after env file history))) =
                Some "root" -> path req = "/"))
    /\ (forall req : Request,
          method req = GET ->
          (path req = "/health" ->
           response_of (snd (handle req (state_after env file history))) =
           Some {| status_code := 200; mimetype := "application/json";
                   data := Some (JObj [ ("status", JStr "healthy");
                                        ("service", JStr "voice_transcription");
                                        ("version", JStr "1.0.0") ]);
                   allow := [] |})
          /\ (path req = "/" ->
              response_of (snd (handle req (state_after env file history))) =
              Some {| status_code := 200; mimetype := "application/json";
                      data := Some (JObj
                        [ ("message", JStr "Voice Transcription Service");
                          ("status", JStr "running");
                          ("endpoints", JArr [ JStr "/health" ]) ]);
                      allow := [] |}))
    /\ (forall req : Request,
          (forall r, In r (url_map (state_after env file history)) ->
                     rule_matches (path req) r = false) ->
          handle req (state_after env file history) =
          (state_after env file history, NoRoute)).
Proof.
  intros env file history. rewrite AppFacts.state_after_start.
  split; [reflexivity|]. split; [reflexivity|].
  split; [|split; [|split]].
  - intros p. rewrite AppFacts.url_map_import. unfold rule_matches. split.
    + intros (r & [<- | [<- | [<- | []]]] & Hr); cbn [rule] in Hr.
      * destruct (match_rule "/static/<path:filename>" p) as [args|] eqn:Hm;
          [|discriminate].
        destruct (AppFacts.match_rule_static_inv p args Hm)
          as (f & _ & Hp & Hf).
        right. right. eauto.
      * rewrite AppFacts.match_rule_health in Hr.
        destruct (String.eqb "/health" p) eqn:Hp; [|discriminate].
        apply String.eqb_eq in Hp. auto.
      * rewrite AppFacts.match_rule_root in Hr.
        destruct (String.eqb "/" p) eqn:Hp; [|discriminate].
        apply String.eqb_eq in Hp. auto.
    + intros [-> | [-> | (f & -> & Hf)]].
      * eexists. split; [right; left; reflexivity | reflexivity].
      * eexists. split; [right; right; left; reflexivity | reflexivity].
      * eexists. split; [left; reflexivity|]. cbn [rule].
        rewrite AppFacts.match_rule_static, AppFacts.strip_prefix_app, Hf.
        reflexivity.
  - intros [m p q h b]. cbn [path method].
    AppFacts.on_import_table p;
      try (apply String.eqb_eq in Hhealth); try (apply String.eqb_eq in Hroot);
      subst; try discriminate;
      destruct m; cbn; split; intros He; try discriminate He; reflexivity.
  - intros req Hm. split; intros Hp;
      unfold handle, wsgi_app; rewrite Hm, Hp; reflexivity.
  - intros req Hnone. rewrite AppFacts.url_map_import in Hnone.
    unfold rule_matches in Hnone.
    assert (H1 := Hnone _ (or_introl eq_refl)).
    assert (H2 := Hnone _ (or_intror (or_introl eq_refl))).
    assert (H3 := Hnone _ (or_intror (or_intror (or_introl eq_refl)))).
    cbn [rule] in H1, H2, H3.
    unfold handle, wsgi_app, match_request.
    rewrite AppFacts.url_map_import. cbn [flat_map rule List.app].
    destruct (match_rule "/static/<path:filename>" (path req)); [discriminate|].
    destruct (match_rule "/health" (path req)); [discriminate|].
    destruct (match_rule "/" (path req)); [discriminate|].
    reflexivity.
Qed.

Lemma two_routes_only_witness :
  handle (mkRequest GET "/transcribe" "" [] "") (state_after ∅ ∅ []) =
  (state_after ∅ ∅ [], NoRoute).
Proof.
  destruct (two_routes_only ∅ ∅ []) as (_ & _ & _ & _ & _ & Hother).
  apply (Hother (mkRequest GET "/transcribe" "" [] "")).
  intros r [<- | [<- | [<- | []]]]; reflexivity.
Defined.

(** C7. Handling a request has no side effect: the process state after a
    request, and after any sequence of requests, is the state before it,
    and the outcome of a request does not depend on the requests served
    before it. *)
Theorem handlers_have_no_side_effects :
  forall (st : Process) (req : Request) (history : list Request),
    fst (handle req st) = st
    /\ fst (health_check req st) = st
    /\ fst (root req st) = st
    /\ fst (serve st history) = st
    /\ snd (handle req (fst (serve st history))) = snd (handle req st).
Proof.
  intros st req history.
  repeat split.
  - apply AppFacts.handle_state.
  - apply AppFacts.serve_state.
  - rewrite AppFacts.serve_state. reflexivity.
Qed.

(** C10, as stated, fails: the registered routes other than [/] are
    [/static/<path:filename>] and [/health], and the payload of [root]
    lists only the second. *)
Lemma endpoints_list_counterexample :
  ~ (forall (env file : gmap string (list N)) (history : list Request)
            (req : Request) (st : Process) (doc listed : json),
       data (snd (root req st)) = Some doc ->
       json_get doc "endpoints" = Some listed ->
       json_strings listed =
       List.filter (fun p => negb (String.eqb p "/"))
         (map rule (url_map (state_after env file history)))).
Proof.
  intros H.
  specialize (H ∅ ∅ [] (mkRequest GET "/" "" [] "") (import_module ∅ ∅)
                root_payload (JArr [ JStr "/health" ]) eq_refl eq_refl).
  vm_compute in H. discriminate.
Qed.

(** C10, amended. The [endpoints] list of the root payload is the list of
    the rules that the application's own decorators registered, other than
    [/] itself: the single path [/health]. The route table holds one more
    rule, the framework's [/static/<path:filename>], which the list does
    not mention. *)
Theorem endpoints_list_matches_routes :
  forall (env file : gmap string (list N)) (history : list Request)
         (req : Request) (st : Process),
    exists doc listed,
      data (snd (root req st)) = Some doc
      /\ json_get doc "endpoints" = Some listed
      /\ listed = JArr [ JStr "/health" ]
      /\ json_strings listed =
         List.filter (fun p => negb (String.eqb p "/"))
           (map rule
              (decorated_rules (url_map (state_after env file history))))
      /\ json_strings listed = ["/health"]
      /\ List.filter (fun p => negb (String.eqb p "/"))
           (map rule (url_map (state_after env file history))) =
         "/static/<path:filename>" :: json_strings listed.
Proof.
  intros env file history req st.
  rewrite AppFacts.state_after_start.
  exists root_payload, (JArr [ JStr "/health" ]).
  repeat split; reflexivity.
Qed.

(** C8, as stated, fails: a HEAD request to [/health] is not rejected. The
    rule registered with [methods=['GET']] also allows HEAD, so the request
    runs [health_check] and is answered with status 200. *)
Lemma non_get_rejected_counterexample :
  ~ (forall (env file : gmap string (list N)) (history : list Request)
            (req : Request),
       path req = "/health" \/ path req = "/" ->
       method req <> GET ->
       invoked (snd (handle req (state_after env file history))) = None
       /\ exists resp,
            snd (handle req (state_after env file history)) =
            MethodNotAllowed resp).
Proof.
  intros H.
  destruct (H ∅ ∅ [] (mkRequest HEAD "/health" "" [] "")) as [Hinv _].
  - left. reflexivity.
  - discriminate.
  - vm_compute in Hinv. discriminate.
Qed.

(** C8, amended. On [/health] and [/] the rules allow GET, HEAD and
    OPTIONS. A request with any other method (POST, PUT, DELETE, ...) is
    rejected with 405 and an [Allow] header naming the three, and no view
    function runs. A HEAD request runs the view of its route and is
    answered with status 200 and no body; an OPTIONS request is answered by
    the framework without running a view. *)
Theorem method_restriction :
  forall (env file : gmap string (list N)) (history : list Request)
         (req : Request),
    path req = "/health" \/ path req = "/" ->
    (method req <> GET -> method req <> HEAD -> method req <> OPTIONS ->
       snd (handle req (state_after env file history)) =
       MethodNotAllowed (method_not_allowed_response [GET; OPTIONS; HEAD])
       /\ invoked (snd (handle req (state_after env file history))) = None)
    /\ (method req = HEAD ->
          snd (handle req (state_after env file history)) =
          FromView (if String.eqb (path req) "/health"
                    then "health_check" else "root")
            {| status_code := 200; mimetype := "application/json";
               data := None; allow := [] |})
    /\ (method req = OPTIONS ->
          snd (handle req (state_after env file history)) =
          AutomaticOptions (make_default_options_response [GET; OPTIONS; HEAD])
          /\ invoked (snd (handle req (state_after env file history))) = None).
Proof.
  intros env file history [m p q h b] Hp. cbn [path method] in *.
  rewrite AppFacts.state_after_start. unfold handle, wsgi_app.
  cbn [path method].
  destruct Hp as [-> | ->]; (split; [|split]).
  all: try (destruct m; intros; try congruence; split; reflexivity).
  all: intros ->; reflexivity.
Qed.

Lemma method_restriction_witness :
  snd (handle (mkRequest POST "/health" "" [] "{}") (state_after ∅ ∅ [])) =
  MethodNotAllowed
    {| status_code := 405; mimetype := "text/html";
       data := None; allow := [GET; OPTIONS; HEAD] |}.
Proof.
  destruct (method_restriction ∅ ∅ [] (mkRequest POST "/health" "" [] "{}"))
    as (Hother & _ & _).
  - left. reflexivity.
  - apply Hother; discriminate.
Defined.

(* ===================================================================== *)
(** * Process start                                                       *)
(* ===================================================================== *)

(** C3, as stated, fails: with [PORT] unset in the environment of the
    process and [PORT=5000] in the [.env] file, [load_dotenv()] sets it and
    the server is started on port 5000, not 9001. *)
Lemma default_port_counterexample :
  ~ ((∅ : gmap string (list N)) !! "PORT" = None ->
     start Py.sample_interpreter ∅ {["PORT" := Py.text "5000"]} =
     Py.Return {| host := "0.0.0.0"; port := 9001; debug := true |}).
Proof.
  intros H. specialize (H (lookup_empty _)).
  vm_compute in H. discriminate.
Qed.

(** C3, amended. [load_dotenv()] runs first and adds to [os.environ] the
    bindings of the [.env] file for the names the environment does not
    set; the port is then [int(os.environ.get('PORT', 9001))] and is
    passed to [app.run] with host "0.0.0.0" and the debug flag. With
    [PORT] set neither in the environment nor in the file, [app.run] is
    called with port 9001. With [PORT] set in the environment to a valid
    decimal integer string within the interpreter's digit limit, [int()]
    converts it and [app.run] is called with the integer it returns, 8080
    for "8080". With [PORT] unset in the environment and set to such a
    string in the file, [app.run] is called with the integer of the file's
    value. The statement ends at the call of [app.run]: the integer is
    passed on unchecked, and whether a socket can be bound to it is not
    part of it. *)
Theorem port_from_environment :
  forall (py : Py.Interpreter) (env file : gmap string (list N)),
    (env !! "PORT" = None -> file !! "PORT" = None ->
       start py env file =
       Py.Return {| host := "0.0.0.0"; port := 9001; debug := true |})
    /\ (forall s,
          env !! "PORT" = Some s ->
          IntLiteral.int_literal py s ->
          Py.exceeds_limit (Py.max_str_digits py)
            (IntLiteral.count_digits py s) = false ->
          exists n,
            Py.int_of_str py s = Py.Return n
            /\ start py env file =
               Py.Return {| host := "0.0.0.0"; port := n; debug := true |})
    /\ (forall s,
          env !! "PORT" = None -> file !! "PORT" = Some s ->
          IntLiteral.int_literal py s ->
          Py.exceeds_limit (Py.max_str_digits py)
            (IntLiteral.count_digits py s) = false ->
          exists n,
            Py.int_of_str py s = Py.Return n
            /\ start py env file =
               Py.Return {| host := "0.0.0.0"; port := n; debug := true |})
    /\ (env !! "PORT" = Some (Py.text "8080") ->
          start py env file =
          Py.Return {| host := "0.0.0.0"; port := 8080; debug := true |}).
Proof.
  intros py env file.
  split; [|split; [|split]].
  - intros He Hf. unfold start. apply AppFacts.main_unset.
    rewrite AppFacts.environ_import. apply AppFacts.load_dotenv_unset. auto.
  - intros s He Hlit Hlim.
    destruct (IntFacts.int_of_str_complete py s Hlit Hlim) as [n Hn].
    exists n. split; [assumption|].
    rewrite (AppFacts.start_port_set py env file s He), Hn. reflexivity.
  - intros s He Hf Hlit Hlim.
    destruct (IntFacts.int_of_str_complete py s Hlit Hlim) as [n Hn].
    exists n. split; [assumption|].
    rewrite (AppFacts.start_port_file py env file s He Hf), Hn. reflexivity.
  - intros He.
    rewrite (AppFacts.start_port_set py env file _ He). reflexivity.
Qed.

Lemma port_from_environment_witness :
  start Py.sample_interpreter ∅ ∅ =
    Py.Return {| host := "0.0.0.0"; port := 9001; debug := true |}
  /\ start Py.sample_interpreter {["PORT" := Py.text "8080"]}
       {["PORT" := Py.text "5000"]} =
    Py.Return {| host := "0.0.0.0"; port := 8080; debug := true |}.
Proof.
  split.
  - destruct (port_from_environment Py.sample_interpreter ∅ ∅)
      as (Hdefault & _).
    apply Hdefault; reflexivity.
  - destruct (port_from_environment Py.sample_interpreter
                {["PORT" := Py.text "8080"]} {["PORT" := Py.text "5000"]})
      as (_ & _ & _ & H8080).
    apply H8080. reflexivity.
Defined.

(** C9. [PORT] is read from [os.environ] as the [__main__] block finds it.
    If it is set there to a string that is not a valid decimal integer,
    [int()] raises [ValueError] and the process ends with it: [app.run] is
    never called. Conversely, whenever [app.run] is called, [PORT] was
    unset (and the port is 9001) or set to a valid decimal integer string
    (and the port is its value). A string is any sequence of code points;
    its digits are those of the interpreter's Unicode table. *)
Theorem invalid_port_stops_startup :
  forall (py : Py.Interpreter) (env file : gmap string (list N)),
    (forall s,
       environ (import_module env file) !! "PORT" = Some s ->
       ~ IntLiteral.int_literal py s ->
       Py.int py
         (Py.environ_get (environ (import_module env file)) "PORT"
            (Py.VInt 9001)) = Py.Raise Py.ValueError
       /\ start py env file = Py.Raise Py.ValueError)
    /\ (forall call,
          start py env file = Py.Return call ->
          (environ (import_module env file) !! "PORT" = None
           /\ port call = 9001)
          \/ (exists s,
                environ (import_module env file) !! "PORT" = Some s
                /\ IntLiteral.int_literal py s
                /\ Py.int_of_str py s = Py.Return (port call))).
Proof.
  intros py env file. split.
  - intros s Hs Hbad.
    pose proof (IntFacts.int_of_str_rejects py s Hbad) as Hint.
    unfold start. rewrite (AppFacts.main_set py _ s Hs).
    unfold Py.environ_get. rewrite Hs. simpl. rewrite Hint. auto.
  - intros call Hcall. unfold start in Hcall.
    destruct (environ (import_module env file) !! "PORT") as [s|] eqn:Hs.
    + right. exists s. split; [reflexivity|].
      rewrite (AppFacts.main_set py _ s Hs) in Hcall.
      destruct (Py.int_of_str py s) as [e|n] eqn:Hint; [discriminate|].
      simpl in Hcall. injection Hcall as <-. simpl.
      split; [|reflexivity]. eapply IntFacts.int_of_str_sound; eauto.
    + left. split; [reflexivity|].
      rewrite (AppFacts.main_unset py _ Hs) in Hcall.
      injection Hcall as <-. reflexivity.
Qed.

Lemma abc_not_int_literal :
  ~ IntLiteral.int_literal Py.sample_interpreter (Py.text "abc").
Proof.
  intros H.
  destruct (IntFacts.int_of_str_complete Py.sample_interpreter _ H eq_refl)
    as [n Hn].
  vm_compute in Hn. discriminate.
Defined.

Lemma invalid_port_stops_startup_witness :
  start Py.sample_interpreter {["PORT" := Py.text "abc"]} ∅ =
  Py.Raise Py.ValueError.
Proof.
  destruct (invalid_port_stops_startup Py.sample_interpreter
              {["PORT" := Py.text "abc"]} ∅) as [Hbad _].
  apply (Hbad (Py.text "abc")).
  - reflexivity.
  - exact abc_not_int_literal.
Defined.

(* ===================================================================== *)
(** * The legacy module and its test                                      *)
(* ===================================================================== *)

(** C5. The module [pre_diagnosis_summary_service] binds no name: neither
    the class [PreDiagnosisSummaryService] nor, as a function or as a method
    of a class, any of [process_questionnaire_data],
    [extract_key_medical_history] and [generate_summary], which are the
    methods the test file calls. So the test file's
    [from ... import PreDiagnosisSummaryService] raises [ImportError]
    instead of binding the class, and with [unittest] importable the test
    file as a whole, imported or run as a script, ends with that
    [ImportError]. *)
Theorem legacy_import_fails :
  forall (table0 table : gmap string (Py.result (gmap string PyModule.object)))
         (unittest : gmap string PyModule.object),
    table !! pre_diagnosis_summary_service.module_name =
      Some (PyModule.import_source table0 pre_diagnosis_summary_service.source) ->
    table !! "unittest" = Some (Py.Return unittest) ->
    PyModule.import_source table0 pre_diagnosis_summary_service.source =
      Py.Return ∅
    /\ (forall ns,
          PyModule.import_source table0 pre_diagnosis_summary_service.source =
            Py.Return ns ->
          ~ PyModule.defines_name ns test_pre_diagnosis_summary_service.imported_class
          /\ forall m,
               In m test_pre_diagnosis_summary_service.exercised_methods ->
               ~ PyModule.defines_name ns m /\ ~ PyModule.defines_method ns m)
    /\ test_pre_diagnosis_summary_service.imported_class =
         "PreDiagnosisSummaryService"
    /\ test_pre_diagnosis_summary_service.exercised_methods =
         [ "process_questionnaire_data";
           "extract_key_medical_history";
           "generate_summary" ]
    /\ (forall ns,
          PyModule.exec_stmt table ns
            (PyModule.FromImport pre_diagnosis_summary_service.module_name
               "PreDiagnosisSummaryService") = Py.Raise Py.ImportError)
    /\ PyModule.import_source table test_pre_diagnosis_summary_service.source =
         Py.Raise Py.ImportError
    /\ PyModule.run_script table test_pre_diagnosis_summary_service.source =
         Py.Raise Py.ImportError.
Proof.
  intros table0 table unittest Hservice Hunittest.
  assert (Himport : forall ns,
    PyModule.exec_stmt table ns
      (PyModule.FromImport pre_diagnosis_summary_service.module_name
         "PreDiagnosisSummaryService") = Py.Raise Py.ImportError).
  { intros ns. eapply LegacyFacts.from_service_import_fails. exact Hservice. }
  assert (Hbody :
    PyModule.import_source table test_pre_diagnosis_summary_service.source =
    Py.Raise Py.ImportError).
  { unfold PyModule.import_source.
    cbn [PyModule.body test_pre_diagnosis_summary_service.source
         PyModule.exec_stmts].
    rewrite (LegacyFacts.import_found table ∅ "unittest" unittest Hunittest).
    cbn [Py.bind]. rewrite Himport. reflexivity. }
  split; [reflexivity|]. split; [|split; [|split; [|split; [|split]]]].
  - intros ns [= <-]. split.
    + apply LegacyFacts.empty_defines_no_name.
    + intros m _. split.
      * apply LegacyFacts.empty_defines_no_name.
      * apply LegacyFacts.empty_defines_no_method.
  - reflexivity.
  - reflexivity.
  - exact Himport.
  - exact Hbody.
  - unfold PyModule.run_script. unfold PyModule.import_source in Hbody.
    rewrite Hbody. reflexivity.
Qed.

Lemma legacy_import_fails_witness :
  PyModule.import_source
    {[ pre_diagnosis_summary_service.module_name :=
         PyModule.import_source ∅ pre_diagnosis_summary_service.source;
       "unittest" := Py.Return unittest.namespace ]}
    test_pre_diagnosis_summary_service.source =
  Py.Raise Py.ImportError.
Proof.
  destruct (legacy_import_fails ∅
    {[ pre_diagnosis_summary_service.module_name :=
         PyModule.import_source ∅ pre_diagnosis_summary_service.source;
       "unittest" := Py.Return unittest.namespace ]}
    unittest.namespace)
    as (_ & _ & _ & _ & _ & Himport & _).
  - vm_compute. reflexivity.
  - vm_compute. reflexivity.
  - exact Himport.
Defined.

(* ===================================================================== *)
(** * Further properties of process start                                 *)
(* ===================================================================== *)

(** X1. [app.run] is called exactly when [PORT], as [os.environ] holds it
    after [load_dotenv()], is unset or is a valid decimal integer string
    whose digits stay within the interpreter's limit. A string is any
    sequence of code points, and its digits are those of the interpreter's
    Unicode table. *)
Theorem startup_criterion :
  forall (py : Py.Interpreter) (env file : gmap string (list N)),
    (exists call, start py env file = Py.Return call)
    <-> (environ (import_module env file) !! "PORT" = None
         \/ exists s,
              environ (import_module env file) !! "PORT" = Some s
              /\ IntLiteral.int_literal py s
              /\ Py.exceeds_limit (Py.max_str_digits py)
                   (IntLiteral.count_digits py s) = false).
Proof.
  intros py env file. unfold start.
  destruct (environ (import_module env file) !! "PORT") as [s|] eqn:Hs.
  - rewrite (AppFacts.main_set py _ s Hs). split.
    + intros [call Hcall]. right. exists s. split; [reflexivity|].
      apply (IntFacts.int_of_str_accepts py s).
      destruct (Py.int_of_str py s) as [e|n]; [discriminate|]. eauto.
    + intros [Hnone | (s' & [= <-] & Hlit & Hlim)]; [discriminate|].
      destruct (IntFacts.int_of_str_complete py s Hlit Hlim) as [n Hn].
      rewrite Hn. simpl. eauto.
  - rewrite (AppFacts.main_unset py _ Hs). split; [auto | eauto].
Qed.

Lemma startup_criterion_witness :
  exists call,
    start Py.sample_interpreter
      {["PORT" := [1640; 1632; 1640; 1632]%N]} ∅ = Py.Return call.
Proof.
  apply (startup_criterion Py.sample_interpreter
           {["PORT" := [1640; 1632; 1640; 1632]%N]} ∅).
  right. exists [1640; 1632; 1640; 1632]%N. split; [reflexivity|].
  split; [|reflexivity].
  apply (IntFacts.int_of_str_accepts Py.sample_interpreter).
  exists 8080. reflexivity.
Defined.

(** X2. A [PORT] set in the environment of the process decides alone: the
    [.env] file has no influence on process start, also when the value in
    the environment is invalid and the one in the file is not. *)
Theorem environment_overrides_dotenv :
  forall (py : Py.Interpreter) (env file1 file2 : gmap string (list N)) s,
    env !! "PORT" = Some s ->
    start py env file1 = start py env file2.
Proof.
  intros py env file1 file2 s Hs.
  rewrite !(AppFacts.start_port_set py env _ s Hs). reflexivity.
Qed.

Lemma environment_overrides_dotenv_witness :
  start Py.sample_interpreter {["PORT" := Py.text "80a"]}
    {["PORT" := Py.text "5000"]} =
  start Py.sample_interpreter {["PORT" := Py.text "80a"]} ∅.
Proof.
  apply (environment_overrides_dotenv Py.sample_interpreter
           {["PORT" := Py.text "80a"]} {["PORT" := Py.text "5000"]} ∅
           (Py.text "80a")).
  reflexivity.
Defined.

(** X3. White space around the value of [PORT] is not seen: with [w1] and
    [w2] made of white space, [PORT = w1 ++ s ++ w2] starts the process
    exactly as [PORT = s] does, with the same port or the same error. *)
Theorem port_padding_ignored :
  forall (py : Py.Interpreter) (env file : gmap string (list N))
         (w1 s w2 : list N),
    PortText.blank w1 = true ->
    PortText.blank w2 = true ->
    start py (<["PORT" := (w1 ++ s ++ w2)%list]> env) file =
    start py (<["PORT" := s]> env) file.
Proof.
  intros py env file w1 s w2 H1 H2.
  rewrite !AppFacts.start_port_insert.
  rewrite (TextFacts.int_of_str_padding py w1 s w2 H1 H2). reflexivity.
Qed.

Lemma port_padding_ignored_witness :
  start Py.sample_interpreter
    (<["PORT" := (Py.text "  " ++ Py.text "8080" ++ [12288%N])%list]> ∅) ∅ =
  start Py.sample_interpreter (<["PORT" := Py.text "8080"]> ∅) ∅.
Proof.
  apply (port_padding_ignored Py.sample_interpreter ∅ ∅
           (Py.text "  ") (Py.text "8080") [12288%N]); reflexivity.
Defined.

(** X4. A [PORT] of decimal digits only (at most 640 of them, leading
    zeros allowed) starts [app.run] on the number the digits denote in
    positional notation. There is no range check: the number is passed on
    whether or not it is a TCP port. *)
Theorem digits_port_value :
  forall (py : Py.Interpreter) (env file : gmap string (list N)) (s : string),
    s <> EmptyString ->
    PortText.all_digits s = true ->
    (String.length s <= Py.MAX_STR_DIGITS_THRESHOLD)%nat ->
    start py (<["PORT" := Py.text s]> env) file =
    Py.Return {| host := "0.0.0.0";
                 port := PortText.positional s;
                 debug := true |}.
Proof.
  intros py env file s Hne Hd Hlen.
  rewrite AppFacts.start_port_insert.
  destruct (TextFacts.int_of_str_row py s Hne Hd Hlen) as (-> & _).
  reflexivity.
Qed.

Lemma digits_port_value_witness :
  start Py.sample_interpreter (<["PORT" := Py.text "070000"]> ∅) ∅ =
  Py.Return {| host := "0.0.0.0"; port := 70000; debug := true |}.
Proof.
  apply (digits_port_value Py.sample_interpreter ∅ ∅ "070000").
  - discriminate.
  - reflexivity.
  - unfold Py.MAX_STR_DIGITS_THRESHOLD. simpl. lia.
Defined.

(** X5. A sign in front of the digits is honoured: [+] leaves the number as
    it is and [-] negates it, so a negative number reaches [app.run] as the
    port. *)
Theorem signed_port_value :
  forall (py : Py.Interpreter) (env file : gmap string (list N)) (s : string),
    s <> EmptyString ->
    PortText.all_digits s = true ->
    (String.length s <= Py.MAX_STR_DIGITS_THRESHOLD)%nat ->
    start py (<["PORT" := Py.text (String "+" s)]> env) file =
      Py.Return {| host := "0.0.0.0";
                   port := PortText.positional s;
                   debug := true |}
    /\ start py (<["PORT" := Py.text (String "-" s)]> env) file =
      Py.Return {| host := "0.0.0.0";
                   port := - PortText.positional s;
                   debug := true |}.
Proof.
  intros py env file s Hne Hd Hlen.
  rewrite !AppFacts.start_port_insert.
  destruct (TextFacts.int_of_str_row py s Hne Hd Hlen) as (_ & -> & ->).
  split; reflexivity.
Qed.

Lemma signed_port_value_witness :
  start Py.sample_interpreter (<["PORT" := Py.text "-8080"]> ∅) ∅ =
  Py.Return {| host := "0.0.0.0"; port := -8080; debug := true |}.
Proof.
  destruct (signed_port_value Py.sample_interpreter ∅ ∅ "8080")
    as [_ Hminus].
  - discriminate.
  - reflexivity.
  - unfold Py.MAX_STR_DIGITS_THRESHOLD. simpl. lia.
  - exact Hminus.
Defined.

(** X6. One underscore between two rows of digits is a separator only:
    [PORT = a ++ "_" ++ b] starts the process as [PORT = a ++ b] does. *)
Theorem underscore_port_separator :
  forall (py : Py.Interpreter) (env file : gmap string (list N))
         (a b : string),
    a <> EmptyString -> b <> EmptyString ->
    PortText.all_digits a = true ->
    PortText.all_digits b = true ->
    start py (<["PORT" := Py.text (a ++ String "_" b)]> env) file =
    start py (<["PORT" := Py.text (a ++ b)]> env) file.
Proof.
  intros py env file a b Ha0 Hb0 Ha Hb.
  rewrite !AppFacts.start_port_insert.
  rewrite (TextFacts.int_of_str_underscore py a b Ha0 Hb0 Ha Hb).
  reflexivity.
Qed.

Lemma underscore_port_separator_witness :
  start Py.sample_interpreter
    (<["PORT" := Py.text ("8" ++ String "_" "080")]> ∅) ∅ =
  start Py.sample_interpreter (<["PORT" := Py.text ("8" ++ "080")]> ∅) ∅.
Proof.
  apply (underscore_port_separator Py.sample_interpreter ∅ ∅ "8" "080").
  - discriminate.
  - discriminate.
  - reflexivity.
  - reflexivity.
Defined.

(** X7. A [PORT] that is set but empty, or made of white space only, does
    not fall back to the default 9001: process start fails with
    [ValueError]. *)
Theorem blank_port_raises :
  forall (py : Py.Interpreter) (env file : gmap string (list N)) (w : list N),
    PortText.blank w = true ->
    start py (<["PORT" := w]> env) file = Py.Raise Py.ValueError.
Proof.
  intros py env file w Hw.
  rewrite AppFacts.start_port_insert.
  rewrite (TextFacts.int_of_str_blank py w Hw). reflexivity.
Qed.

Lemma blank_port_raises_witness :
  start Py.sample_interpreter (<["PORT" := []]> ∅)
    {["PORT" := Py.text "8080"]} =
  Py.Raise Py.ValueError.
Proof.
  apply (blank_port_raises Py.sample_interpreter ∅
           {["PORT" := Py.text "8080"]} []).
  reflexivity.
Defined.

(* ===================================================================== *)
(** * Further properties of the routes and of the test file               *)
(* ===================================================================== *)

(** X8. The [Allow] header of a 405 answer tells the truth: whenever a
    request is rejected with [MethodNotAllowed], the response has status
    405 and no JSON body, and a method is listed in [Allow] exactly when
    the same request sent with that method is not rejected with 405. *)
Theorem allow_header_consistent :
  forall (env file : gmap string (list N)) (history : list Request)
         (req : Request) (resp : Response),
    snd (handle req (state_after env file history)) = MethodNotAllowed resp ->
    status_code resp = 405
    /\ data resp = None
    /\ forall m : Method,
         In m (allow resp) <->
         (forall resp',
            snd (handle (mkRequest m (path req) (query_string req)
                           (headers req) (flask.body req))
                   (state_after env file history))
            <> MethodNotAllowed resp').
Proof.
  intros env file history [m p q h b] resp.
  rewrite AppFacts.state_after_start.
  cbn [path query_string headers flask.body].
  AppFacts.on_import_table p;
    destruct m; cbn; intros H; try discriminate;
    injection H as <-; (split; [reflexivity|]); (split; [reflexivity|]);
    intros m'; destruct m'; cbn; split;
    try (intros _ resp' H'; discriminate);
    try (intros _; tauto);
    try (intros [H' | [H' | [H' | H']]]; try discriminate; contradiction);
    try (intros [H' | [H' | [H' | [H' | [H' | [H' | H']]]]]];
         try discriminate; contradiction);
    try (intros [H' | [H' | [H' | [H' | [H' | [H' | [H' | [H' | [H' | H']]]]]]]]];
         try discriminate; contradiction);
    try (intros H'; exfalso; eapply H'; reflexivity).
Qed.

Lemma allow_header_consistent_witness :
  status_code (method_not_allowed_response [GET; OPTIONS; HEAD]) = 405
  /\ In HEAD (allow (method_not_allowed_response [GET; OPTIONS; HEAD])).
Proof.
  destruct (allow_header_consistent ∅ ∅ []
              (mkRequest DELETE "/health" "" [] "{}")
              (method_not_allowed_response [GET; OPTIONS; HEAD]))
    as (Hstatus & _ & Hallow).
  - reflexivity.
  - split; [exact Hstatus|].
    apply Hallow. intros resp'. vm_compute. discriminate.
Defined.

(** X9. The missing class is the only obstacle to importing the test file.
    Take any setting where [unittest] can be imported and has the class
    [TestCase], and where the legacy module exports a
    [PreDiagnosisSummaryService]. Then importing the test file succeeds
    and binds three names: [unittest], the imported class, and
    [TestPreDiagnosisSummaryService] with its four methods. Run as a
    script, the file goes on to call [unittest.main()] and ends the way
    that call ends: with [SystemExit] when [main] is the function of the
    standard library. *)
Theorem test_file_imports_once_class_exists :
  forall (table : gmap string (Py.result (gmap string PyModule.object)))
         (unittest exported : gmap string PyModule.object)
         (cls : PyModule.object) (base : list PyModule.FunctionDef),
    table !! "unittest" = Some (Py.Return unittest) ->
    unittest !! "TestCase" = Some (PyModule.OClass base) ->
    table !! pre_diagnosis_summary_service.module_name =
      Some (Py.Return exported) ->
    exported !! "PreDiagnosisSummaryService" = Some cls ->
    PyModule.import_source table test_pre_diagnosis_summary_service.source =
      Py.Return
        (<["TestPreDiagnosisSummaryService" :=
             PyModule.OClass
               [ test_pre_diagnosis_summary_service.setUp;
                 test_pre_diagnosis_summary_service.test_process_questionnaire_data;
                 test_pre_diagnosis_summary_service.test_extract_key_medical_history;
                 test_pre_diagnosis_summary_service.test_generate_summary ]]>
           (<["PreDiagnosisSummaryService" := cls]>
              (<["unittest" := PyModule.OModule "unittest"]> ∅)))
    /\ (unittest !! "main" = Some (PyModule.OBuiltin (Some Py.SystemExit)) ->
        PyModule.run_script table test_pre_diagnosis_summary_service.source =
        Py.Raise Py.SystemExit).
Proof.
  intros table unittest exported cls base Hunittest Hbase Hmodule Hcls.
  assert (Hns1 :
    (<["PreDiagnosisSummaryService" := cls]>
       (<["unittest" := PyModule.OModule "unittest"]> ∅)
     : gmap string PyModule.object) !! "unittest" =
    Some (PyModule.OModule "unittest")).
  { rewrite lookup_insert_ne by discriminate. apply lookup_insert_eq. }
  assert (Himport :
    PyModule.import_source table test_pre_diagnosis_summary_service.source =
    Py.Return
      (<["TestPreDiagnosisSummaryService" :=
           PyModule.OClass test_pre_diagnosis_summary_service.TestPreDiagnosisSummaryService]>
         (<["PreDiagnosisSummaryService" := cls]>
            (<["unittest" := PyModule.OModule "unittest"]> ∅)))).
  { unfold PyModule.import_source.
    cbn [PyModule.body test_pre_diagnosis_summary_service.source
         PyModule.exec_stmts].
    rewrite (LegacyFacts.import_found table ∅ "unittest" unittest Hunittest).
    cbn [Py.bind].
    rewrite (LegacyFacts.from_import_found table _ _ _ exported cls Hmodule Hcls).
    cbn [Py.bind PyModule.exec_stmt PyModule.eval_bases].
    rewrite (LegacyFacts.get_attr_found table _ "unittest" "unittest" unittest
               "TestCase" _ Hns1 Hunittest Hbase).
    reflexivity. }
  split; [exact Himport|].
  intros Hmain.
  unfold PyModule.run_script. unfold PyModule.import_source in Himport.
  rewrite Himport.
  cbn [Py.bind PyModule.main_block test_pre_diagnosis_summary_service.source
       PyModule.exec_stmts PyModule.exec_stmt].
  unfold PyModule.call_attr.
  rewrite (LegacyFacts.get_attr_found table _ "unittest" "unittest" unittest
             "main" (PyModule.OBuiltin (Some Py.SystemExit))).
  - reflexivity.
  - rewrite lookup_insert_ne by discriminate. exact Hns1.
  - exact Hunittest.
  - exact Hmain.
Qed.

Lemma test_file_imports_once_class_exists_witness :
  PyModule.run_script
    {[ pre_diagnosis_summary_service.module_name :=
         Py.Return {[ "PreDiagnosisSummaryService" := PyModule.OClass [] ]};
       "unittest" := Py.Return unittest.namespace ]}
    test_pre_diagnosis_summary_service.source = Py.Raise Py.SystemExit.
Proof.
  destruct (test_file_imports_once_class_exists
    {[ pre_diagnosis_summary_service.module_name :=
         Py.Return {[ "PreDiagnosisSummaryService" := PyModule.OClass [] ]};
       "unittest" := Py.Return unittest.namespace ]}
    unittest.namespace
    {[ "PreDiagnosisSummaryService" := PyModule.OClass [] ]}
    (PyModule.OClass []) []) as [_ Hrun].
  - vm_compute. reflexivity.
  - vm_compute. reflexivity.
  - vm_compute. reflexivity.
  - vm_compute. reflexivity.
  - apply Hrun. vm_compute. reflexivity.
Defined.
